(** * sops_anomaly: windowing and score assembly of the anomaly detectors

    A shallow embedding of the three detectors of [sops_anomaly]
    ([detectors/autoencoder.py], [detectors/lstm_ad.py], [models/donut_ad.py]).

    Conventions.
    - Python exceptions are an explicit [result] type; a method that mutates
      [self] returns the new [self] next to its outcome, so that the state
      left behind by a raising call is visible.
    - Floating point numbers are idealised as rationals ([Q]): [float32]
      conversion is the identity and arithmetic never rounds or overflows.
      Properties that turn on [nan] or on an infinite score are stated over
      [Float.t] instead, in [AutoEncoderIEEE].
    - Neural networks, their optimisers and the external [donut] library are
      not part of the repository: they are parameters (Section variables or
      record fields).  Everything around them (windowing, slicing, padding,
      thresholds, which trained object is looked up) follows the source line
      by line. *)

From Stdlib Require Import List ZArith QArith Qminmax Lia Bool Arith.
Import ListNotations.

Close Scope Q_scope.
Open Scope nat_scope.

Set Implicit Arguments.

(** ** Python and numpy primitives *)

Module Py.

Inductive exn : Type :=
| AttributeError   (* attribute access on [None] *)
| IndexError       (* list or [iloc] index out of range *)
| TypeError        (* calling [None] *)
| ValueError       (* numpy shape and argument errors *)
| RuntimeError.    (* torch shape errors *)

Inductive result (A : Type) : Type :=
| Ok (a : A)
| Raise (e : exn).

Arguments Ok {A} a.
Arguments Raise {A} e.

Definition bind {A B} (c : result A) (k : A -> result B) : result B :=
  match c with
  | Ok a => k a
  | Raise e => Raise e
  end.

Definition raises {A} (c : result A) : Prop := exists e, c = Raise e.

Fixpoint mapM {A B} (f : A -> result B) (l : list A) : result (list B) :=
  match l with
  | [] => Ok []
  | x :: xs =>
      match f x with
      | Raise e => Raise e
      | Ok y =>
          match mapM f xs with
          | Raise e => Raise e
          | Ok ys => Ok (y :: ys)
          end
      end
  end.

(** [slice.indices] for step 1: a negative bound counts from the end, and
    every bound is clamped into [0, n]. *)
Definition norm_index (n : nat) (i : Z) : nat :=
  if (i <? 0)%Z then Z.to_nat (Z.max 0 (i + Z.of_nat n))
  else Nat.min (Z.to_nat i) n.

Definition slice_start (n : nat) (start : option Z) : nat :=
  match start with None => 0 | Some i => norm_index n i end.

Definition slice_stop (n : nat) (stop : option Z) : nat :=
  match stop with None => n | Some i => norm_index n i end.

(** [l[start:stop]] *)
Definition slice {A} (l : list A) (start stop : option Z) : list A :=
  let lo := slice_start (length l) start in
  let hi := slice_stop (length l) stop in
  firstn (hi - lo) (skipn lo l).

(** [a[start:stop] = p] on a 1-d numpy array: [p] must have the length of
    the slice, or length 1 (then it is broadcast). *)
Definition set_slice {A} (a : list A) (start stop : option Z) (p : list A)
  : result (list A) :=
  let lo := slice_start (length a) start in
  let hi := slice_stop (length a) stop in
  let k := hi - lo in
  if length p =? k then Ok (firstn lo a ++ p ++ skipn (lo + k) a)
  else
    match p with
    | [x] => Ok (firstn lo a ++ repeat x k ++ skipn (lo + k) a)
    | _ => Raise ValueError
    end.

(** [np.max] of a 1-d array; the empty array is a [ValueError]. *)
Definition np_max (l : list Q) : result Q :=
  match l with
  | [] => Raise ValueError
  | x :: xs => Ok (fold_left Qmax xs x)
  end.

Definition sumQ (l : list Q) : Q := fold_right Qplus 0%Q l.

(** What [np.mean(results, axis=0)] can return on a list of 1-d arrays:
    a 1-d array, or the scalar [nan] (with a warning) for the empty list. *)
Inductive ndarray : Type :=
| nan
| array (a : list Q).

Definition add_rows (a b : list Q) : list Q :=
  map (fun p => (fst p + snd p)%Q) (combine a b).

(** [np.mean(results, axis=0)]: the rows are added up along axis 0 and the
    sum is divided by their number; rows of different lengths do not make an
    array. *)
Definition np_mean_axis0 (results : list (list Q)) : result ndarray :=
  match results with
  | [] => Ok nan
  | r0 :: rest =>
      if forallb (fun r => length r =? length r0) rest
      then Ok (array (map (fun s => (s / inject_Z (Z.of_nat (length results)))%Q)
                          (fold_left add_rows rest r0)))
      else Raise ValueError
  end.

(** [F.mse_loss(rec, sample)] with the default mean reduction, on finite
    values and without rounding.  (The mean over no entries is 0 in [Q] where
    torch gives [nan]: what depends on that is stated in
    [AutoEncoderIEEE].) *)
Definition mse_loss (rec sample : list Q) : Q :=
  (sumQ (map (fun p => (fst p - snd p) * (fst p - snd p)) (combine rec sample))
   / inject_Z (Z.of_nat (length sample)))%Q.

End Py.

Export Py.

Declare Scope py_scope.
Notation "x <- c ;; k" := (Py.bind c (fun x => k))
  (at level 61, c at next level, right associativity) : py_scope.
Open Scope py_scope.

(** ** Time series tables *)

(** A [pd.DataFrame] of floats: a time index, a number of columns and the
    rows.  pandas keeps tables rectangular, see [wf]. *)
Record DataFrame : Type := mkDataFrame {
  index : list Z;
  ncols : nat;
  rows : list (list Q)
}.

Definition wf (d : DataFrame) : Prop :=
  length (index d) = length (rows d) /\
  Forall (fun r => length r = ncols d) (rows d).

(** [len(data)] *)
Definition len (d : DataFrame) : nat := length (rows d).

(** [data.items()]: the columns, left to right. *)
Definition items (d : DataFrame) : list (list Q) :=
  map (fun j => map (fun r => nth j r 0%Q) (rows d)) (seq 0 (ncols d)).

(** ** sops_anomaly.utils *)

Module Utils.

(** Modelled from the spec: [sops_anomaly/utils.py] ([window_data]) is not
    among the sources.  Section 4.1: for T rows, D columns and window size
    W the result has T-W+1 rows and D*W columns, each row the concatenation
    of W consecutive original rows, and W > T is an error.  The spec does
    not name the exception (a [ValueError] here) nor the time labels of the
    windows; a window carries the label of its last row, which is the
    alignment the zero padding of the detectors restores. *)
Definition window_data (data : DataFrame) (window_size : nat)
  : result DataFrame :=
  let T := length (rows data) in
  if T <? window_size then Raise ValueError
  else Ok {| index := skipn (window_size - 1) (index data);
             ncols := ncols data * window_size;
             rows := map (fun i =>
                            concat (firstn window_size (skipn i (rows data))))
                         (seq 0 (T - window_size + 1)) |}.

End Utils.

(** ** detectors/autoencoder.py *)

Module AutoEncoder.

(** The torch modules the networks are made of, by their shapes. *)
Inductive nn_Module : Type :=
| Linear (in_features out_features : Z)
| ReLU.

Definition _build_layers (input_size : Z) (layers : list Z) (output_size : Z)
  : list nn_Module :=
  match layers with
  | [] => [Linear input_size output_size]
  | first :: _ =>
      let input_layer := Linear input_size first in
      let output_layer := Linear (last layers 0%Z) output_size in
      let inner_layers :=
        map (fun i => Linear (nth (i - 1) layers 0%Z) (nth i layers 0%Z))
            (seq 1 (length layers - 1)) in
      [input_layer] ++ inner_layers ++ [output_layer]
  end.

(** [nn.Sequential] of the layers with a [ReLU] after each but the last
    ([layers] is never empty here). *)
Definition _build_network (layers : list nn_Module) : list nn_Module :=
  flat_map (fun layer => [layer; ReLU]) (removelast layers)
  ++ [last layers ReLU].

Definition _get_encoder (input_size : Z) (layers : list Z) (output_size : Z)
  : list nn_Module :=
  _build_network (_build_layers input_size layers output_size).

Definition _get_decoder (input_size : Z) (layers : list Z) (output_size : Z)
  : list nn_Module :=
  _build_network (_build_layers input_size layers output_size).

(** An [_AEModel]: the encoder and decoder stacks, and the function their
    weights compute in [eval] mode. *)
Record _AEModel : Type := mk_AEModel {
  encoder : list nn_Module;
  decoder : list nn_Module;
  net : list Q -> list Q
}.

(** [_AEModel.__init__], with the function of the weights it holds. *)
Definition _AEModel__init__ (input_size latent_size : Z) (layers : list Z)
  (weights : list Q -> list Q) : _AEModel :=
  {| encoder := _get_encoder input_size layers latent_size;
     decoder := _get_decoder latent_size (rev layers) input_size;
     net := weights |}.

(** [forward]: a sample whose size is not the [in_features] of the first
    linear layer makes that layer raise. *)
Definition forward (m : _AEModel) (data : list Q) : result (list Q) :=
  match encoder m with
  | Linear in_features _ :: _ =>
      if (Z.of_nat (length data) =? in_features)%Z then Ok (net m data)
      else Raise RuntimeError
  | _ => Raise RuntimeError
  end.

Record t : Type := mk {
  model : option _AEModel;
  _layers : list Z;
  _window_size : Z;
  _input_size : nat;
  _latent_size : Z;
  _threshold : Q;
  _max_error : Q
}.

(** [AutoEncoder.__init__] *)
Definition __init__ (window_size : Z) (latent_size : Z) (layers : list Z)
  (threshold : Q) : t :=
  {| model := None;
     _layers := layers;
     _window_size := window_size;
     _input_size := 0;
     _latent_size := latent_size;
     _threshold := threshold;
     _max_error := 0%Q |}.

Definition set_input_size (self : t) (n : nat) : t :=
  {| model := model self; _layers := _layers self;
     _window_size := _window_size self; _input_size := n;
     _latent_size := _latent_size self; _threshold := _threshold self;
     _max_error := _max_error self |}.

Definition set_model (self : t) (m : _AEModel) : t :=
  {| model := Some m; _layers := _layers self;
     _window_size := _window_size self; _input_size := _input_size self;
     _latent_size := _latent_size self; _threshold := _threshold self;
     _max_error := _max_error self |}.

Definition set_max_error (self : t) (e : Q) : t :=
  {| model := model self; _layers := _layers self;
     _window_size := _window_size self; _input_size := _input_size self;
     _latent_size := _latent_size self; _threshold := _threshold self;
     _max_error := e |}.

(** [_transform_data]; only called with [_window_size > 1]. *)
Definition _transform_data (self : t) (data : DataFrame) : result DataFrame :=
  Utils.window_data data (Z.to_nat (_window_size self)).

(** [_data_to_tensors]: one tensor per row. *)
Definition _data_to_tensors (data : DataFrame) : list (list Q) := rows data.

(** The loop shared by [_compute_threshold] and [predict]:
    [F.mse_loss(model.forward(sample), sample).item()] for every sample. *)
Definition reconstruction_errors (m : _AEModel) (data : list (list Q))
  : result (list Q) :=
  mapM (fun sample => rec <- forward m sample ;; Ok (mse_loss rec sample)) data.

Definition _compute_threshold (self : t) (data : list (list Q)) : result Q :=
  match model self with
  | None => Raise AttributeError
  | Some m =>
      scores <- reconstruction_errors m data ;;
      np_max scores
  end.

Section Train.

(** The network after [_AEModel(input_size, latent_size, layers)] has been
    built and the Adam loop has run [epochs] times over the samples. *)
Variable fit :
  forall (input_size : nat) (latent_size : Z) (layers : list Z)
         (train_data : list (list Q)) (epochs : nat) (learning_rate : Q),
    list Q -> list Q.

Definition train (self : t) (train_data : DataFrame) (epochs : nat)
  (learning_rate : Q) : t * result unit :=
  match (if (_window_size self >? 1)%Z then _transform_data self train_data
         else Ok train_data) with
  | Raise e => (self, Raise e)
  | Ok train_data =>
      match rows train_data with
      | [] => (self, Raise IndexError)          (* train_data.iloc[0] *)
      | row0 :: _ =>
          let self := set_input_size self (length row0) in
          let train_data := _data_to_tensors train_data in
          let self :=
            set_model self
              (_AEModel__init__ (Z.of_nat (_input_size self))
                 (_latent_size self) (_layers self)
                 (fit (_input_size self) (_latent_size self) (_layers self)
                      train_data epochs learning_rate)) in
          match _compute_threshold self train_data with
          | Raise e => (self, Raise e)
          | Ok e => (set_max_error self e, Ok tt)
          end
      end
  end.

End Train.

Definition predict (self : t) (data : DataFrame) : result (list Q) :=
  input_data <-
    (if (_window_size self >? 1)%Z
     then (input_data <- _transform_data self data ;;
           Ok (_data_to_tensors input_data))
     else Ok (_data_to_tensors data)) ;;
  (* Zero padding to match input length. *)
  let scores := repeat 0%Q (Z.to_nat (_window_size self - 1)) in
  match model self with
  | None => Raise AttributeError                (* self.model.eval() *)
  | Some m =>
      errs <- reconstruction_errors m input_data ;;
      Ok (scores ++ errs)
  end.

Definition detect (self : t) (data : DataFrame) : result (list Z) :=
  scores <- predict self data ;;
  Ok (map (fun s => if Qle_bool (_threshold self * _max_error self) s
                    then 1%Z else 0%Z) scores).

End AutoEncoder.

(** ** detectors/lstm_ad.py *)

Module LSTM_AD.

(** numpy arrays by nesting depth: [batch][time][dim] and
    [batch][time][dim][lag]. *)
Definition tensor3 : Type := list (list (list Q)).
Definition tensor4 : Type := list (list (list (list Q))).

(** What the detector gets from torch and from
    [sops_anomaly/detectors/error_distribution.py] (not among the sources):
    the recurrent network with its optimiser loop, and the error
    distribution with its [fit], [get_errors] and [__call__]. *)
Record Backend : Type := {
  LSTM : Type;
  nn_LSTM : forall (input_size : nat) (hidden_size proj_size : Z), LSTM;
  (* the forward pass in [eval] mode, output of shape (d1, d2, proj_size) *)
  lstm_forward : LSTM -> tensor3 -> result tensor3;
  (* [_run_train_loop]: Adam on the MSE of the reshaped outputs *)
  run_train_loop : LSTM -> tensor3 -> tensor4 -> nat -> Q -> result LSTM;
  ErrorDistribution : Type;
  ErrorDistribution_init : nat -> Z -> ErrorDistribution;
  ed_fit : ErrorDistribution -> tensor4 -> tensor3 -> result ErrorDistribution;
  (* one row of errors per evaluated point, any trailing shape, flattened *)
  ed_get_errors : ErrorDistribution -> tensor4 -> tensor3 -> result (list (list Q));
  ed_call : ErrorDistribution -> list (list Q) -> result (list Q)
}.

(** [a[:, start:stop, :]] *)
Definition slice_axis1 (a : tensor3) (start stop : option Z) : tensor3 :=
  map (fun b => slice b start stop) a.

(** [range(n)] *)
Definition range (n : Z) : list Z := map Z.of_nat (seq 0 (Z.to_nat n)).

Definition shape3 (a : tensor3) : list (list nat) := map (map (@length Q)) a.

(** [np.stack(arrays, axis=3)]: the arrays must agree in shape;
    [result[b][t][j][i] = arrays[i][b][t][j]]. *)
Definition np_stack_axis3 (arrays : list tensor3) : result tensor4 :=
  match arrays with
  | [] => Raise ValueError
  | a0 :: _ =>
      if forallb (fun a => if list_eq_dec (list_eq_dec Nat.eq_dec)
                                (shape3 a) (shape3 a0)
                           then true else false) arrays
      then Ok (map (fun b =>
                 map (fun t =>
                   map (fun j =>
                     map (fun a => nth j (nth t (nth b a []) []) 0%Q) arrays)
                     (seq 0 (length (nth t (nth b a0 []) []))))
                   (seq 0 (length (nth b a0 []))))
                 (seq 0 (length a0)))
      else Raise ValueError
  end.

(** [n] consecutive chunks of [k] entries: the row-major [reshape] of a flat
    vector to [(n, k)]. *)
Definition chunks (n k : nat) (l : list Q) : list (list Q) :=
  map (fun j => firstn k (skipn (j * k) l)) (seq 0 n).

Section Detector.

Variable B : Backend.

Record t : Type := mk {
  model : option (LSTM B);
  _threshold : Q;
  _hidden_size : Z;
  _l_preds : Z;
  _d_size : nat;
  _error_dist : option (ErrorDistribution B)
}.

(** [LSTM_AD.__init__] *)
Definition __init__ (l_predictions hidden_size : Z) (threshold : Q) : t :=
  {| model := None;
     _threshold := threshold;
     _hidden_size := hidden_size;
     _l_preds := l_predictions;
     _d_size := 0;
     _error_dist := None |}.

Definition set_d_size (self : t) (d : nat) : t :=
  {| model := model self; _threshold := _threshold self;
     _hidden_size := _hidden_size self; _l_preds := _l_preds self;
     _d_size := d; _error_dist := _error_dist self |}.

Definition set_model (self : t) (m : LSTM B) : t :=
  {| model := Some m; _threshold := _threshold self;
     _hidden_size := _hidden_size self; _l_preds := _l_preds self;
     _d_size := _d_size self; _error_dist := _error_dist self |}.

Definition set_error_dist (self : t) (e : ErrorDistribution B) : t :=
  {| model := model self; _threshold := _threshold self;
     _hidden_size := _hidden_size self; _l_preds := _l_preds self;
     _d_size := _d_size self; _error_dist := Some e |}.

Definition _initialize_model (self : t) : t :=
  let self :=
    set_model self
      (nn_LSTM B (_d_size self) (_hidden_size self)
               (_l_preds self * Z.of_nat (_d_size self))) in
  set_error_dist self (ErrorDistribution_init B (_d_size self) (_l_preds self)).

(** [output.reshape(d1, d2, self._d_size, self._l_preds)] *)
Definition _reshape_outputs (self : t) (output : tensor3) : result tensor4 :=
  let d := _d_size self in
  let l := Z.to_nat (_l_preds self) in
  if ((0 <=? _l_preds self)%Z &&
      forallb (forallb (fun v => length v =? d * l)) output)%bool
  then Ok (map (map (chunks d l)) output)
  else Raise RuntimeError.

(** [np.expand_dims(data, axis=0)] *)
Definition expand_dims (data : DataFrame) : tensor3 := [rows data].

Definition _transform_train_data_target (self : t) (data : DataFrame)
  : result (tensor3 * tensor4) :=
  let values := expand_dims data in
  let l := _l_preds self in
  let train_data := slice_axis1 values None (Some (- l)%Z) in
  let train_targets :=
    map (fun i => slice_axis1 values (Some (1 + i)%Z) (Some (- l + i + 1)%Z))
        (range (l - 1)) in
  let train_targets := train_targets ++ [slice_axis1 values (Some l) None] in
  train_targets <- np_stack_axis3 train_targets ;;
  Ok (train_data, train_targets).

Definition _transform_eval_data_target (self : t) (data : DataFrame)
  : tensor3 * tensor3 :=
  let values := expand_dims data in
  let l := _l_preds self in
  let eval_data := slice_axis1 values None (Some (- l)%Z) in
  let eval_target := slice_axis1 values (Some l) (Some (- l + 1)%Z) in
  (eval_data, eval_target).

(** [_get_model_outputs] once the model is in [eval] mode. *)
Definition _get_model_outputs (self : t) (m : LSTM B) (inputs : tensor3)
  : result tensor4 :=
  outputs <- lstm_forward B m inputs ;;
  _reshape_outputs self outputs.

Definition _fit_error_distribution (self : t) (data : DataFrame)
  : t * result unit :=
  let '(eval_data, eval_targets) := _transform_eval_data_target self data in
  match model self, _error_dist self with
  | Some m, Some dist =>
      match (outputs <- _get_model_outputs self m eval_data ;;
             ed_fit B dist outputs eval_targets) with
      | Raise e => (self, Raise e)
      | Ok dist => (set_error_dist self dist, Ok tt)
      end
  | _, _ => (self, Raise AttributeError)
  end.

Definition _train_model (self : t) (train_data : tensor3)
  (train_targets : tensor4) (epochs : nat) (learning_rate : Q)
  : t * result unit :=
  match model self with
  | None => (self, Raise AttributeError)
  | Some m =>
      match run_train_loop B m train_data train_targets epochs learning_rate with
      | Raise e => (self, Raise e)
      | Ok m => (set_model self m, Ok tt)
      end
  end.

Definition train (self : t) (train_data : DataFrame) (epochs : nat)
  (learning_rate : Q) : t * result unit :=
  let data := train_data in
  match _transform_train_data_target self data with
  | Raise e => (self, Raise e)
  | Ok (train_data, train_targets) =>
      (* train_data[0].shape[-1] *)
      let self := set_d_size self (ncols data) in
      let self := _initialize_model self in
      match _train_model self train_data train_targets epochs learning_rate with
      | (self, Raise e) => (self, Raise e)
      | (self, Ok _) => _fit_error_distribution self data
      end
  end.

Definition _get_errors (self : t) (outputs : tensor4) (targets : tensor3)
  : result (list (list Q)) :=
  match _error_dist self with
  | None => Raise AttributeError
  | Some dist =>
      errors <- ed_get_errors B dist outputs targets ;;
      (* errors.reshape((errors.shape[0], l * d)) *)
      let size := (_l_preds self * Z.of_nat (_d_size self))%Z in
      if ((0 <=? size)%Z &&
          forallb (fun e => length e =? Z.to_nat size) errors)%bool
      then Ok errors else Raise ValueError
  end.

Definition _get_scores (self : t) (data : DataFrame) (errors : list (list Q))
  : result (list Q) :=
  match _error_dist self with
  | None => Raise TypeError
  | Some dist =>
      p <- ed_call B dist errors ;;
      let scores := repeat 0%Q (len data) in
      set_slice scores (Some (_l_preds self)) (Some (- _l_preds self + 1)%Z) p
  end.

Definition predict (self : t) (data : DataFrame) : result (list Q) :=
  match model self with
  | None => Raise AttributeError                (* self.model.eval() *)
  | Some m =>
      let '(inputs, targets) := _transform_eval_data_target self data in
      outputs <- _get_model_outputs self m inputs ;;
      errors <- _get_errors self outputs targets ;;
      _get_scores self data errors
  end.

Definition Qlt_bool (x y : Q) : bool := negb (Qle_bool y x).

Definition detect (self : t) (data : DataFrame) : result (list Z) :=
  scores <- predict self data ;;
  Ok (map (fun s => if Qlt_bool s (_threshold self) then 1%Z else 0%Z) scores).

End Detector.

End LSTM_AD.

(** ** models/donut_ad.py *)

Module Donut.

(** The [donut.Donut] model object [_build_model] creates: its window length,
    latent size and the variable scope [model<counter>]. *)
Record _Donut : Type := mk_Donut {
  x_dims : nat;
  z_dims : nat;
  variable_scope : nat
}.

(** The [donut] package and TensorFlow, which are not part of the
    repository.  A [Session] stands for a [tf.Session] together with the
    variable values [trainer.fit] left in it. *)
Record Lib : Type := {
  Session : Type;
  complete_timestamp :
    list Z -> list Q -> list Z ->
    result (list Z * list Z * (list Q * list Z));
  standardize_kpi : list Q -> list bool -> list Q * Q * Q;
  trainer_fit :
    _Donut -> list Q -> list Z -> list Z -> Q -> Q -> result Session;
  get_score : _Donut -> Session -> list Q -> list Z -> result (list Q)
}.

Section Detector.

Variable L : Lib.

Record t : Type := mk {
  _window_size : Z;
  _models : list _Donut;
  _sessions : list (Session L);
  _predictors : list _Donut;      (* DonutPredictor(model) *)
  _model_counter : nat
}.

(** [Donut.__init__] *)
Definition __init__ (window_size : Z) : t :=
  {| _window_size := window_size;
     _models := [];
     _sessions := [];
     _predictors := [];
     _model_counter := 0 |}.

Definition _build_model (self : t) : t * _Donut :=
  let model :=
    {| x_dims := 120; z_dims := 5; variable_scope := _model_counter self |} in
  ({| _window_size := _window_size self;
      _models := _models self;
      _sessions := _sessions self;
      _predictors := _predictors self;
      _model_counter := _model_counter self + 1 |}, model).

Definition append (self : t) (model predictor : _Donut) (session : Session L)
  : t :=
  {| _window_size := _window_size self;
     _models := _models self ++ [model];
     _sessions := _sessions self ++ [session];
     _predictors := _predictors self ++ [predictor];
     _model_counter := _model_counter self |}.

(** [np.zeros_like(values, dtype=np.int32)] *)
Definition zeros_like (values : list Q) : list Z := map (fun _ => 0%Z) values.

(** [np.logical_or] *)
Definition logical_or (a b : list Z) : list bool :=
  map (fun p => negb (fst p =? 0)%Z || negb (snd p =? 0)%Z)%bool (combine a b).

(** The body of the [for] loop of [train], over the remaining columns. *)
Fixpoint train_columns (self : t) (timestamp : list Z)
  (columns : list (list Q)) : t * result unit :=
  match columns with
  | [] => (self, Ok tt)
  | column :: columns =>
      let values := column in
      let labels := zeros_like values in
      match complete_timestamp L timestamp values labels with
      | Raise e => (self, Raise e)
      | Ok (timestamp, missing, (values, labels)) =>
          let '(train_values, mean, std) :=
            standardize_kpi L values (logical_or labels missing) in
          let '(self, model) := _build_model self in
          let predictor := model in
          match trainer_fit L model train_values labels missing mean std with
          | Raise e => (self, Raise e)
          | Ok session =>
              train_columns (append self model predictor session)
                            timestamp columns
          end
      end
  end.

Definition train (self : t) (train_data : DataFrame) (epochs : nat)
  : t * result unit :=
  match Utils.window_data train_data (Z.to_nat (_window_size self)) with
  | Raise e => (self, Raise e)
  | Ok train_data =>
      let timestamp := index train_data in
      train_columns self timestamp (items train_data)
  end.

(** The body of the [for] loop of [predict]: [i] is the [enumerate] counter,
    the result is the list [results]. *)
Fixpoint predict_columns (self : t) (i : nat) (timestamp : list Z)
  (columns : list (list Q)) : result (list (list Q)) :=
  match columns with
  | [] => Ok []
  | column :: columns =>
      let values := column in
      let labels := zeros_like values in
      r <- complete_timestamp L timestamp values labels ;;
      let '(timestamp, missing, (values, labels)) := r in
      match nth_error (_sessions self) i with
      | None => Raise IndexError
      | Some session =>
          match nth_error (_predictors self) i with
          | None => Raise IndexError
          | Some predictor =>
              scores <- get_score L predictor session values missing ;;
              results <- predict_columns self (S i) timestamp columns ;;
              Ok (scores :: results)
          end
      end
  end.

Definition predict (self : t) (data : DataFrame) : result ndarray :=
  data <- Utils.window_data data (Z.to_nat (_window_size self)) ;;
  let timestamp := index data in
  results <- predict_columns self 0 timestamp (items data) ;;
  np_mean_axis0 results.

(** [detect] is a [TODO] whose body is [pass]: it returns [None]. *)
Definition detect (self : t) (data : DataFrame) : result (option (list Z)) :=
  Ok None.

End Detector.

End Donut.

(** ** Scores with IEEE special values

    Where a property turns on [nan] or on an infinite value, rationals are
    not enough.  [Float.t] adds the three special values of IEEE 754 to the
    rationals, with the comparisons and the product numpy computes on them
    (signed zeros are not distinguished, finite results are not rounded). *)

Module Float.

Inductive t : Type :=
| NaN
| NegInf
| Fin (q : Q)
| PosInf.

Definition is_nan (x : t) : bool :=
  match x with NaN => true | _ => false end.

Definition is_finite (x : t) : bool :=
  match x with Fin _ => true | _ => false end.

(** [x <= y]: false as soon as one side is [nan]. *)
Definition leb (x y : t) : bool :=
  match x, y with
  | NaN, _ => false
  | _, NaN => false
  | NegInf, _ => true
  | _, PosInf => true
  | Fin a, Fin b => Qle_bool a b
  | Fin _, NegInf => false
  | PosInf, _ => false
  end.

(** [x < y] *)
Definition ltb (x y : t) : bool := leb x y && negb (leb y x).

Definition opp (x : t) : t :=
  match x with
  | NaN => NaN
  | NegInf => PosInf
  | Fin a => Fin (- a)
  | PosInf => NegInf
  end.

Definition add (x y : t) : t :=
  match x, y with
  | NaN, _ => NaN
  | _, NaN => NaN
  | Fin a, Fin b => Fin (a + b)
  | PosInf, NegInf => NaN
  | NegInf, PosInf => NaN
  | PosInf, _ => PosInf
  | _, PosInf => PosInf
  | NegInf, _ => NegInf
  | _, NegInf => NegInf
  end.

Definition sub (x y : t) : t := add x (opp y).

(** An infinity times the finite [a]: [0 * inf] is [nan], otherwise the
    signs multiply. *)
Definition scale_inf (positive : bool) (a : Q) : t :=
  match (a ?= 0)%Q with
  | Eq => NaN
  | Gt => if positive then PosInf else NegInf
  | Lt => if positive then NegInf else PosInf
  end.

Definition mul (x y : t) : t :=
  match x, y with
  | NaN, _ => NaN
  | _, NaN => NaN
  | Fin a, Fin b => Fin (a * b)
  | Fin a, PosInf => scale_inf true a
  | PosInf, Fin a => scale_inf true a
  | Fin a, NegInf => scale_inf false a
  | NegInf, Fin a => scale_inf false a
  | PosInf, PosInf => PosInf
  | NegInf, NegInf => PosInf
  | PosInf, NegInf => NegInf
  | NegInf, PosInf => NegInf
  end.

(** [np.maximum]: [nan] if either side is, else the larger one. *)
Definition maximum (a b : t) : t :=
  if is_nan a then a
  else if is_nan b then b
  else if leb a b then b else a.

(** [np.max] of a 1-d array: [nan] as soon as one entry is; the empty array
    is a [ValueError]. *)
Definition np_max (l : list t) : result t :=
  match l with
  | [] => Raise ValueError
  | x :: xs => Ok (fold_left maximum xs x)
  end.

End Float.

(** ** detectors/autoencoder.py, with scores that may be nan or infinite

    The same methods as in [AutoEncoder], over tables and scores of
    [Float.t].  What [F.mse_loss] returns is a parameter here: a float32
    computation may round, overflow to an infinity or give [nan], and no
    property below depends on how. *)

Module AutoEncoderIEEE.

(** A [pd.DataFrame] whose entries may be [nan] or infinite. *)
Record Frame : Type := mkFrame {
  index : list Z;
  ncols : nat;
  rows : list (list Float.t)
}.

(** [len(data)] *)
Definition len (d : Frame) : nat := length (rows d).

(** Modelled from the spec: [sops_anomaly/utils.py] is not among the
    sources.  Section 4.1, as for [Utils.window_data]: T-W+1 rows of D*W
    columns, each the concatenation of W consecutive rows, an error if
    W > T. *)
Definition window_data (data : Frame) (window_size : nat) : result Frame :=
  let T := length (rows data) in
  if T <? window_size then Raise ValueError
  else Ok {| index := skipn (window_size - 1) (index data);
             ncols := ncols data * window_size;
             rows := map (fun i =>
                            concat (firstn window_size (skipn i (rows data))))
                         (seq 0 (T - window_size + 1)) |}.

Record _AEModel : Type := mk_AEModel {
  encoder : list AutoEncoder.nn_Module;
  decoder : list AutoEncoder.nn_Module;
  net : list Float.t -> list Float.t
}.

(** [_AEModel.__init__], with the function of the weights it holds. *)
Definition _AEModel__init__ (input_size latent_size : Z) (layers : list Z)
  (weights : list Float.t -> list Float.t) : _AEModel :=
  {| encoder := AutoEncoder._get_encoder input_size layers latent_size;
     decoder := AutoEncoder._get_decoder latent_size (rev layers) input_size;
     net := weights |}.

Definition forward (m : _AEModel) (data : list Float.t)
  : result (list Float.t) :=
  match encoder m with
  | AutoEncoder.Linear in_features _ :: _ =>
      if (Z.of_nat (length data) =? in_features)%Z then Ok (net m data)
      else Raise RuntimeError
  | _ => Raise RuntimeError
  end.

Record t : Type := mk {
  model : option _AEModel;
  _layers : list Z;
  _window_size : Z;
  _input_size : nat;
  _latent_size : Z;
  _threshold : Float.t;
  _max_error : Float.t
}.

(** [AutoEncoder.__init__] *)
Definition __init__ (window_size : Z) (latent_size : Z) (layers : list Z)
  (threshold : Float.t) : t :=
  {| model := None;
     _layers := layers;
     _window_size := window_size;
     _input_size := 0;
     _latent_size := latent_size;
     _threshold := threshold;
     _max_error := Float.Fin 0 |}.

Definition set_input_size (self : t) (n : nat) : t :=
  {| model := model self; _layers := _layers self;
     _window_size := _window_size self; _input_size := n;
     _latent_size := _latent_size self; _threshold := _threshold self;
     _max_error := _max_error self |}.

Definition set_model (self : t) (m : _AEModel) : t :=
  {| model := Some m; _layers := _layers self;
     _window_size := _window_size self; _input_size := _input_size self;
     _latent_size := _latent_size self; _threshold := _threshold self;
     _max_error := _max_error self |}.

Definition set_max_error (self : t) (e : Float.t) : t :=
  {| model := model self; _layers := _layers self;
     _window_size := _window_size self; _input_size := _input_size self;
     _latent_size := _latent_size self; _threshold := _threshold self;
     _max_error := e |}.

Definition _transform_data (self : t) (data : Frame) : result Frame :=
  window_data data (Z.to_nat (_window_size self)).

Definition _data_to_tensors (data : Frame) : list (list Float.t) := rows data.

Section Torch.

(** [F.mse_loss(rec, sample).item()] *)
Variable mse_loss : list Float.t -> list Float.t -> Float.t.

(** The loop shared by [_compute_threshold] and [predict]. *)
Definition reconstruction_errors (m : _AEModel) (data : list (list Float.t))
  : result (list Float.t) :=
  mapM (fun sample => rec <- forward m sample ;; Ok (mse_loss rec sample)) data.

Definition _compute_threshold (self : t) (data : list (list Float.t))
  : result Float.t :=
  match model self with
  | None => Raise AttributeError
  | Some m =>
      scores <- reconstruction_errors m data ;;
      Float.np_max scores
  end.

(** The network after the Adam loop has run. *)
Variable fit :
  forall (input_size : nat) (latent_size : Z) (layers : list Z)
         (train_data : list (list Float.t)) (epochs : nat)
         (learning_rate : Q),
    list Float.t -> list Float.t.

Definition train (self : t) (train_data : Frame) (epochs : nat)
  (learning_rate : Q) : t * result unit :=
  match (if (_window_size self >? 1)%Z then _transform_data self train_data
         else Ok train_data) with
  | Raise e => (self, Raise e)
  | Ok train_data =>
      match rows train_data with
      | [] => (self, Raise IndexError)          (* train_data.iloc[0] *)
      | row0 :: _ =>
          let self := set_input_size self (length row0) in
          let train_data := _data_to_tensors train_data in
          let self :=
            set_model self
              (_AEModel__init__ (Z.of_nat (_input_size self))
                 (_latent_size self) (_layers self)
                 (fit (_input_size self) (_latent_size self) (_layers self)
                      train_data epochs learning_rate)) in
          match _compute_threshold self train_data with
          | Raise e => (self, Raise e)
          | Ok e => (set_max_error self e, Ok tt)
          end
      end
  end.

Definition predict (self : t) (data : Frame) : result (list Float.t) :=
  input_data <-
    (if (_window_size self >? 1)%Z
     then (input_data <- _transform_data self data ;;
           Ok (_data_to_tensors input_data))
     else Ok (_data_to_tensors data)) ;;
  (* Zero padding to match input length. *)
  let scores := repeat (Float.Fin 0) (Z.to_nat (_window_size self - 1)) in
  match model self with
  | None => Raise AttributeError                (* self.model.eval() *)
  | Some m =>
      errs <- reconstruction_errors m input_data ;;
      Ok (scores ++ errs)
  end.

(** [(scores >= self._threshold * self._max_error).astype(np.int32)] *)
Definition detect (self : t) (data : Frame) : result (list Z) :=
  scores <- predict self data ;;
  Ok (map (fun s =>
             if Float.leb (Float.mul (_threshold self) (_max_error self)) s
             then 1%Z else 0%Z) scores).

End Torch.

End AutoEncoderIEEE.

(** ** Stand-ins for the external parts

    Concrete backends on which the detectors can be run.  They have the
    shapes of the real ones; the numbers they produce are simple stand-ins
    for what a trained network would give. *)

Module Fixtures.

(** A table with one time step per row, labelled 0, 1, 2, ... *)
Definition table (ncols : nat) (rows : list (list Q)) : DataFrame :=
  {| index := map Z.of_nat (seq 0 (length rows));
     ncols := ncols;
     rows := rows |}.

(** [n] rows of one column holding [start], [start + 1], ... *)
Definition ramp (start : Z) (n : nat) : DataFrame :=
  table 1 (map (fun i => [inject_Z (start + Z.of_nat i)]) (seq 0 n)).

(** An auto-encoder that has learnt to answer with its first training
    sample. *)
Definition ae_fit (input_size : nat) (latent_size : Z) (layers : list Z)
  (train_data : list (list Q)) (epochs : nat) (learning_rate : Q)
  : list Q -> list Q :=
  fun _ => hd [] train_data.

(** A recurrent network that forecasts every signal to stay where it is, for
    all lags, and an error distribution whose density at an error vector [e]
    is [1 / (1 + |e|^2)]. *)
Definition lstm_backend : LSTM_AD.Backend :=
  {| LSTM_AD.LSTM := nat * nat;
     LSTM_AD.nn_LSTM := fun input_size _ proj_size =>
       (input_size, Z.to_nat proj_size);
     LSTM_AD.lstm_forward := fun m inputs =>
       if forallb (forallb (fun x => length x =? fst m)) inputs
       then Ok (map (map (fun x =>
                  concat (map (fun v => repeat v (snd m / fst m)) x))) inputs)
       else Raise RuntimeError;
     LSTM_AD.run_train_loop := fun m _ _ _ _ => Ok m;
     LSTM_AD.ErrorDistribution := unit;
     LSTM_AD.ErrorDistribution_init := fun _ _ => tt;
     LSTM_AD.ed_fit := fun dist _ _ => Ok dist;
     LSTM_AD.ed_get_errors := fun _ outputs targets =>
       Ok (map (fun p =>
                  concat (map (fun q => map (fun o => (o - snd q)%Q) (fst q))
                              (combine (fst p) (snd p))))
               (combine (nth 0 outputs []) (nth 0 targets [])));
     LSTM_AD.ed_call := fun _ errors =>
       Ok (map (fun e => (1 / (1 + sumQ (map (fun x => x * x) e)))%Q) errors)
  |}.

Fixpoint insert_by_time {A} (x : Z * A) (l : list (Z * A)) : list (Z * A) :=
  match l with
  | [] => [x]
  | y :: ys => if (fst x <=? fst y)%Z then x :: l else y :: insert_by_time x ys
  end.

Definition sort_by_time {A} (l : list (Z * A)) : list (Z * A) :=
  fold_right insert_by_time [] l.

Fixpoint diff (l : list Z) : list Z :=
  match l with
  | x :: ((y :: _) as rest) => (y - x)%Z :: diff rest
  | _ => []
  end.

(** [donut.preprocessing.complete_timestamp]: sorts by time, takes the
    smallest interval as the step, and fills every missing step with a zero
    value marked missing. *)
Definition complete_timestamp (timestamp : list Z) (values : list Q)
  (labels : list Z) : result (list Z * list Z * (list Q * list Z)) :=
  if negb ((length values =? length timestamp) &&
           (length labels =? length timestamp))%bool
  then Raise ValueError
  else
    let src := sort_by_time (combine timestamp (combine values labels)) in
    let sorted := map fst src in
    match sorted, diff sorted with
    | t0 :: _, i0 :: intervals =>
        let min_interval := fold_left Z.min intervals i0 in
        if (min_interval =? 0)%Z then Raise ValueError
        else if existsb (fun itv => negb (itv mod min_interval =? 0)%Z)
                        (i0 :: intervals)
        then Raise ValueError
        else
          let length :=
            Z.to_nat ((last sorted t0 - t0) / min_interval + 1) in
          let ret_timestamp :=
            map (fun k => (t0 + Z.of_nat k * min_interval)%Z) (seq 0 length) in
          let at_time t := find (fun e => (fst e =? t)%Z) src in
          Ok (ret_timestamp,
              map (fun t => match at_time t with
                            | Some _ => 0%Z | None => 1%Z end) ret_timestamp,
              (map (fun t => match at_time t with
                             | Some e => fst (snd e) | None => 0%Q end)
                   ret_timestamp,
               map (fun t => match at_time t with
                             | Some e => snd (snd e) | None => 0%Z end)
                   ret_timestamp))
    | _, _ => Raise ValueError
    end.

(** A stand-in for the [donut] package.  A fitted session remembers the
    first training value; a window of [x_dims] points is scored by how far
    its last point is from that value.  [get_score] gives one score per
    window, which is the shape of the real predictor. *)
Definition donut_lib : Donut.Lib :=
  {| Donut.Session := Q;
     Donut.complete_timestamp := complete_timestamp;
     Donut.standardize_kpi := fun values _ => (values, 0%Q, 1%Q);
     Donut.trainer_fit := fun model values _ _ _ _ =>
       if length values <? Donut.x_dims model then Raise ValueError
       else Ok (hd 0%Q values);
     Donut.get_score := fun predictor session values _ =>
       if length values <? Donut.x_dims predictor then Raise ValueError
       else Ok (map (fun i =>
                       (nth (i + Donut.x_dims predictor - 1) values 0
                        - session)%Q)
                    (seq 0 (length values - Donut.x_dims predictor + 1)))
  |}.

(** Detectors trained on small tables. *)

Definition ae_trained : AutoEncoder.t :=
  fst (AutoEncoder.train ae_fit
         (AutoEncoder.__init__ 2 100 [500; 200]%Z (8 # 10))
         (ramp 1 4) 20 (1 # 10000)).

Definition lstm_trained : LSTM_AD.t lstm_backend :=
  fst (LSTM_AD.train (LSTM_AD.__init__ lstm_backend 2 400 (9 # 10))
         (ramp 1 5) 50 (1 # 10000)).

(** A Donut with window size 2, trained once on 125 points. *)
Definition donut_windowed : Donut.t donut_lib :=
  fst (Donut.train (Donut.__init__ donut_lib 2) (ramp 1 125) 0).

(** A Donut with the default window size, never trained, trained on the
    ramp from 1, and then trained again on the ramp from 1001. *)
Definition donut_new : Donut.t donut_lib := Donut.__init__ donut_lib 1.

Definition donut_once : Donut.t donut_lib :=
  fst (Donut.train donut_new (ramp 1 125) 0).

Definition donut_twice : Donut.t donut_lib :=
  fst (Donut.train donut_once (ramp 1001 125) 0).

Definition donut_fresh : Donut.t donut_lib :=
  fst (Donut.train donut_new (ramp 1001 125) 0).

(** Four rows of two columns. *)
Definition two_columns : DataFrame :=
  table 2 (map (fun i => [inject_Z (Z.of_nat i); inject_Z (10 * Z.of_nat i)])
               (seq 1 4)).

(** An LSTM_AD with horizon 1. *)
Definition lstm_one_step : LSTM_AD.t lstm_backend :=
  fst (LSTM_AD.train (LSTM_AD.__init__ lstm_backend 1 400 (9 # 10))
         (ramp 1 5) 50 (1 # 10000)).

(** The mean of the squared differences over [Float.t]; the mean of no
    entries is [nan], as in torch. *)
Definition mse_loss_ieee (rec sample : list Float.t) : Float.t :=
  match length sample with
  | 0 => Float.NaN
  | S n =>
      Float.mul
        (fold_right Float.add (Float.Fin 0)
           (map (fun p => Float.mul (Float.sub (fst p) (snd p))
                                    (Float.sub (fst p) (snd p)))
                (combine rec sample)))
        (Float.Fin (1 # Pos.of_succ_nat n))
  end.

(** The auto-encoder that answers with its first training sample, over
    [Float.t]. *)
Definition ae_fit_ieee (input_size : nat) (latent_size : Z) (layers : list Z)
  (train_data : list (list Float.t)) (epochs : nat) (learning_rate : Q)
  : list Float.t -> list Float.t :=
  fun _ => hd [] train_data.

(** A table of finite values as a frame. *)
Definition frame (d : DataFrame) : AutoEncoderIEEE.Frame :=
  {| AutoEncoderIEEE.index := index d;
     AutoEncoderIEEE.ncols := ncols d;
     AutoEncoderIEEE.rows := map (map Float.Fin) (rows d) |}.

(** Two rows without a single column. *)
Definition no_columns : AutoEncoderIEEE.Frame := frame (table 0 [[]; []]).

(** Detectors over [Float.t]: trained on the ramp with threshold ratios 0.8
    and 1.2, and on the table without columns. *)
Definition ieee_trained : AutoEncoderIEEE.t :=
  fst (AutoEncoderIEEE.train mse_loss_ieee ae_fit_ieee
         (AutoEncoderIEEE.__init__ 2 100 [500; 200]%Z (Float.Fin (8 # 10)))
         (frame (ramp 1 4)) 20 (1 # 10000)).

Definition ieee_strict : AutoEncoderIEEE.t :=
  fst (AutoEncoderIEEE.train mse_loss_ieee ae_fit_ieee
         (AutoEncoderIEEE.__init__ 2 100 [500; 200]%Z (Float.Fin (12 # 10)))
         (frame (ramp 1 4)) 20 (1 # 10000)).

Definition ieee_no_columns : AutoEncoderIEEE.t :=
  fst (AutoEncoderIEEE.train mse_loss_ieee ae_fit_ieee
         (AutoEncoderIEEE.__init__ 1 100 [500; 200]%Z (Float.Fin (8 # 10)))
         no_columns 20 (1 # 10000)).

End Fixtures.

(** Tables of a given shape, as numpy sees them. *)
Definition has_shape (T D : nat) (tab : list (list Q)) : Prop :=
  length tab = T /\ Forall (fun r => length r = D) tab.

(** ** tests/test_detectors/test_vae.py

    What [test_build_custom_network_auto_encoder] reads off a built network
    and what it compares it with. *)

(** [[net[i] for i in range(0, len(net), 2)]] *)
Fixpoint every_second {A} (net : list A) : list A :=
  match net with
  | [] => []
  | x :: rest =>
      x :: match rest with
           | [] => []
           | _ :: rest => every_second rest
           end
  end.

(** One linear layer per pair of neighbours in [sizes]: the layer [i] the
    test expects has [in_features = sizes[i]] and
    [out_features = sizes[i+1]]. *)
Fixpoint expected_layers (sizes : list Z) : list AutoEncoder.nn_Module :=
  match sizes with
  | a :: ((b :: _) as rest) => AutoEncoder.Linear a b :: expected_layers rest
  | _ => []
  end.

(** Closed side conditions are settled by evaluation. *)
Ltac by_eval :=
  first [ reflexivity
        | cbn; lia
        | vm_compute; lia
        | vm_compute; reflexivity
        | vm_compute; discriminate ].

(** * Properties *)

(** ** Lists, slices and the result type *)

Lemma firstn_skipn_nth {A} (d : A) (l : list A) (i k : nat) :
  i + k <= length l ->
  firstn k (skipn i l) = map (fun j => nth (i + j) l d) (seq 0 k).
Proof.
  intros Hik.
  apply (nth_ext _ _ d (nth (i + 0) l d)).
  - rewrite length_firstn, length_skipn, length_map, length_seq. lia.
  - intros j Hj.
    rewrite length_firstn, length_skipn in Hj.
    rewrite (map_nth (fun j => nth (i + j) l d)).
    rewrite seq_nth by lia.
    rewrite nth_firstn, nth_skipn.
    destruct (Nat.ltb_spec j k); [reflexivity|lia].
Qed.

Lemma In_firstn_skipn {A} (x : A) (l : list A) (i k : nat) :
  In x (firstn k (skipn i l)) -> In x l.
Proof.
  intros H.
  rewrite <- (firstn_skipn i l). apply in_or_app. right.
  rewrite <- (firstn_skipn k (skipn i l)). apply in_or_app. left. exact H.
Qed.

Lemma length_concat_const {A} (ls : list (list A)) (D : nat) :
  Forall (fun r => length r = D) ls -> length (concat ls) = D * length ls.
Proof.
  induction 1 as [|r ls Hr _ IH]; simpl; [lia|].
  rewrite length_app, IH, Hr. lia.
Qed.

Lemma mapM_length {A B} (f : A -> result B) (l : list A) (r : list B) :
  mapM f l = Ok r -> length r = length l.
Proof.
  revert r. induction l as [|x xs IH]; simpl; intros r H.
  - inversion H. reflexivity.
  - destruct (f x); [|discriminate].
    destruct (mapM f xs); [|discriminate].
    inversion H. simpl. f_equal. apply IH. reflexivity.
Qed.

Lemma mapM_nth {A B} (f : A -> result B) (l : list A) (r : list B)
  (da : A) (db : B) (i : nat) :
  mapM f l = Ok r -> i < length l -> f (nth i l da) = Ok (nth i r db).
Proof.
  revert r i. induction l as [|x xs IH]; simpl; intros r i H Hi; [lia|].
  destruct (f x) eqn:Ex; [|discriminate].
  destruct (mapM f xs) eqn:Em; [|discriminate].
  inversion H; subst r. destruct i; simpl; [assumption|].
  apply IH; [reflexivity|lia].
Qed.





(** ** The windowing utility *)

(** C4. A table of T rows and D columns windowed with size W <= T becomes a
    table of T-W+1 rows and D*W columns whose row [i] is the concatenation of
    the original rows [i .. i+W-1]; with W > T the call raises. *)
Theorem window_data_shape (data : DataFrame) (W : nat) :
  wf data ->
  (W <= len data ->
   exists out,
     Utils.window_data data W = Ok out /\
     len out = len data - W + 1 /\
     ncols out = ncols data * W /\
     Forall (fun r => length r = ncols data * W) (rows out) /\
     forall i, i < len data - W + 1 ->
       nth i (rows out) [] =
       concat (map (fun k => nth (i + k) (rows data) []) (seq 0 W))) /\
  (len data < W -> raises (Utils.window_data data W)).
Proof.
  intros [_ Hrect]. unfold Utils.window_data, len. split.
  - intros HW.
    destruct (Nat.ltb_spec (length (rows data)) W) as [Hlt|_]; [lia|].
    eexists. split; [reflexivity|]. cbn [rows ncols].
    split; [rewrite length_map, length_seq; reflexivity|].
    split; [reflexivity|]. split.
    + apply Forall_forall. intros r Hr.
      apply in_map_iff in Hr. destruct Hr as [i [<- Hi]].
      apply in_seq in Hi.
      rewrite (length_concat_const (D := ncols data)).
      * rewrite length_firstn, length_skipn. f_equal. lia.
      * apply Forall_forall. intros x Hx.
        apply (proj1 (Forall_forall _ _) Hrect).
        eapply In_firstn_skipn. exact Hx.
    + intros i Hi.
      rewrite (nth_indep _ [] (concat (firstn W (skipn 0 (rows data)))))
        by (rewrite length_map, length_seq; exact Hi).
      rewrite (map_nth (fun i => concat (firstn W (skipn i (rows data))))).
      rewrite seq_nth by exact Hi. simpl plus.
      f_equal. apply firstn_skipn_nth. lia.
  - intros HW.
    destruct (Nat.ltb_spec (length (rows data)) W) as [_|Hge]; [|lia].
    eexists. reflexivity.
Qed.

(** ** AutoEncoder *)

(** The stacks for the layer schedule (500, 200): the decoder mirrors the
    encoder. *)
Example ae_layer_shapes :
  let m := AutoEncoder._AEModel__init__ 14 100 [500; 200]%Z (fun x => x) in
  AutoEncoder.encoder m =
    [AutoEncoder.Linear 14 500; AutoEncoder.ReLU;
     AutoEncoder.Linear 500 200; AutoEncoder.ReLU;
     AutoEncoder.Linear 200 100] /\
  AutoEncoder.decoder m =
    [AutoEncoder.Linear 100 200; AutoEncoder.ReLU;
     AutoEncoder.Linear 200 500; AutoEncoder.ReLU;
     AutoEncoder.Linear 500 14].
Proof. split; reflexivity. Qed.


Lemma ae_predict_inv self data scores :
  AutoEncoder.predict self data = Ok scores ->
  exists input m errs,
    (if (AutoEncoder._window_size self >? 1)%Z
     then AutoEncoder._transform_data self data
     else Ok data) = Ok input /\
    AutoEncoder.model self = Some m /\
    AutoEncoder.reconstruction_errors m (rows input) = Ok errs /\
    scores = repeat 0%Q (Z.to_nat (AutoEncoder._window_size self - 1)) ++ errs.
Proof.
  unfold AutoEncoder.predict, AutoEncoder._data_to_tensors. intros H.
  destruct (AutoEncoder._window_size self >? 1)%Z.
  - destruct (AutoEncoder._transform_data self data) as [input|e];
      [|discriminate].
    cbn [bind] in H.
    destruct (AutoEncoder.model self) as [m|] eqn:Em; [|discriminate].
    destruct (AutoEncoder.reconstruction_errors m (rows input))
      as [errs|e] eqn:Ee; [|discriminate].
    inversion H. exists input, m, errs. auto.
  - cbn [bind] in H.
    destruct (AutoEncoder.model self) as [m|] eqn:Em; [|discriminate].
    destruct (AutoEncoder.reconstruction_errors m (rows data))
      as [errs|e] eqn:Ee; [|discriminate].
    inversion H. exists data, m, errs. auto.
Qed.

(** [predict] pads the window errors back to the length of its input. *)
Lemma ae_predict_length self data scores :
  AutoEncoder.predict self data = Ok scores -> length scores = len data.
Proof.
  intros H. apply ae_predict_inv in H.
  destruct H as (input & m & errs & Hin & _ & Herrs & ->).
  apply mapM_length in Herrs.
  rewrite length_app, repeat_length, Herrs.
  destruct (Z.gtb_spec (AutoEncoder._window_size self) 1) as [HW|HW].
  - unfold AutoEncoder._transform_data, Utils.window_data in Hin.
    destruct (Nat.ltb_spec (length (rows data))
                (Z.to_nat (AutoEncoder._window_size self))) as [|Hle];
      [discriminate|].
    inversion Hin; subst input. cbn [rows].
    rewrite length_map, length_seq. unfold len. lia.
  - inversion Hin; subst input.
    replace (Z.to_nat (AutoEncoder._window_size self - 1)) with 0 by lia.
    reflexivity.
Qed.


Lemma ae_predict_intro self data input m errs :
  (if (AutoEncoder._window_size self >? 1)%Z
   then AutoEncoder._transform_data self data
   else Ok data) = Ok input ->
  AutoEncoder.model self = Some m ->
  AutoEncoder.reconstruction_errors m (rows input) = Ok errs ->
  AutoEncoder.predict self data =
  Ok (repeat 0%Q (Z.to_nat (AutoEncoder._window_size self - 1)) ++ errs).
Proof.
  intros Hin Hm Herrs. unfold AutoEncoder.predict, AutoEncoder._data_to_tensors.
  destruct (AutoEncoder._window_size self >? 1)%Z.
  - rewrite Hin. cbn [bind]. rewrite Hm, Herrs. reflexivity.
  - inversion Hin; subst input. cbn [bind]. rewrite Hm, Herrs. reflexivity.
Qed.

(** A detector that was never trained has no model: [predict] and [detect]
    stop at [self.model.eval()] (or earlier, in the windowing). *)
Lemma ae_untrained_raises window_size latent_size layers threshold data :
  let self := AutoEncoder.__init__ window_size latent_size layers threshold in
  raises (AutoEncoder.predict self data) /\
  raises (AutoEncoder.detect self data).
Proof.
  intros self.
  assert (H : raises (AutoEncoder.predict self data)).
  { unfold AutoEncoder.predict.
    destruct (if (AutoEncoder._window_size self >? 1)%Z
              then (input_data <- AutoEncoder._transform_data self data ;;
                    Ok (AutoEncoder._data_to_tensors input_data))
              else Ok (AutoEncoder._data_to_tensors data)) as [x|e];
      cbn [bind]; eexists; reflexivity. }
  split; [exact H|].
  destruct H as [e He]. exists e. unfold AutoEncoder.detect.
  rewrite He. reflexivity.
Qed.

(** ** Slice assignment *)

Lemma norm_index_le (n : nat) (i : Z) : norm_index n i <= n.
Proof. unfold norm_index. destruct (i <? 0)%Z eqn:E; lia. Qed.

Lemma slice_start_le (n : nat) (s : option Z) : slice_start n s <= n.
Proof. destruct s; simpl; [apply norm_index_le|lia]. Qed.

Lemma slice_stop_le (n : nat) (s : option Z) : slice_stop n s <= n.
Proof. destruct s; simpl; [apply norm_index_le|lia]. Qed.

(** The shape of a successful [a[start:stop] = p]: the slice is replaced by
    as many values as it had. *)
Lemma set_slice_inv {A} (a : list A) start stop (p r : list A) :
  set_slice a start stop p = Ok r ->
  exists q,
    length q = slice_stop (length a) stop - slice_start (length a) start /\
    (q = p \/ exists x, p = [x] /\ q = repeat x (length q)) /\
    r = firstn (slice_start (length a) start) a ++ q ++
        skipn (slice_start (length a) start +
               (slice_stop (length a) stop - slice_start (length a) start)) a.
Proof.
  unfold set_slice.
  set (lo := slice_start (length a) start).
  set (hi := slice_stop (length a) stop).
  destruct (Nat.eqb_spec (length p) (hi - lo)) as [E|E]; intros H.
  - inversion H. exists p. auto.
  - destruct p as [|x [|y p]]; try discriminate.
    inversion H. exists (repeat x (hi - lo)).
    rewrite repeat_length. split; [reflexivity|]. split; [|reflexivity].
    right. exists x. auto.
Qed.

Lemma set_slice_length {A} (a : list A) start stop (p r : list A) :
  set_slice a start stop p = Ok r -> length r = length a.
Proof.
  intros H. apply set_slice_inv in H. destruct H as (q & Hq & _ & ->).
  pose proof (slice_start_le (length a) start).
  pose proof (slice_stop_le (length a) stop).
  rewrite !length_app, length_firstn, length_skipn, Hq. lia.
Qed.

(** Outside of the slice the array keeps its entries. *)
Lemma set_slice_outside {A} (d : A) (a : list A) start stop (p r : list A)
  (i : nat) :
  set_slice a start stop p = Ok r ->
  i < slice_start (length a) start \/ slice_stop (length a) stop <= i ->
  nth i r d = nth i a d.
Proof.
  intros H Hi. apply set_slice_inv in H. destruct H as (q & Hq & _ & ->).
  pose proof (slice_start_le (length a) start) as Hlo.
  set (lo := slice_start (length a) start) in *.
  set (hi := slice_stop (length a) stop) in *.
  destruct (Nat.lt_ge_cases i lo) as [Hlt|Hge].
  - rewrite app_nth1 by (rewrite length_firstn; lia).
    rewrite nth_firstn. destruct (Nat.ltb_spec i lo); [reflexivity|lia].
  - assert (Hhi : hi <= i) by (destruct Hi; [lia|assumption]).
    rewrite app_nth2; rewrite length_firstn; [|lia].
    rewrite app_nth2; [|lia].
    rewrite nth_skipn. f_equal. lia.
Qed.


(** ** LSTM_AD *)

Section LstmProps.

Variable B : LSTM_AD.Backend.

(** Every score array [predict] returns was made by [_get_scores]: zeros of
    the length of the input with the likelihoods [p] assigned to
    [scores[l:-l+1]]. *)
Lemma lstm_predict_inv (self : LSTM_AD.t B) data scores :
  LSTM_AD.predict self data = Ok scores ->
  exists dist errors p,
    LSTM_AD._error_dist self = Some dist /\
    LSTM_AD.ed_call B dist errors = Ok p /\
    set_slice (repeat 0%Q (len data))
      (Some (LSTM_AD._l_preds self))
      (Some (- LSTM_AD._l_preds self + 1)%Z) p = Ok scores.
Proof.
  unfold LSTM_AD.predict. intros H.
  destruct (LSTM_AD.model self) as [m|]; [|discriminate].
  destruct (LSTM_AD._transform_eval_data_target self data) as [inputs targets].
  destruct (LSTM_AD._get_model_outputs self m inputs) as [outputs|e];
    [|discriminate].
  cbn [bind] in H.
  destruct (LSTM_AD._get_errors self outputs targets) as [errors|e];
    [|discriminate].
  cbn [bind] in H. unfold LSTM_AD._get_scores in H.
  destruct (LSTM_AD._error_dist self) as [dist|]; [|discriminate].
  destruct (LSTM_AD.ed_call B dist errors) as [p|e] eqn:Ep; [|discriminate].
  cbn [bind] in H. exists dist, errors, p. auto.
Qed.

Lemma lstm_predict_length (self : LSTM_AD.t B) data scores :
  LSTM_AD.predict self data = Ok scores -> length scores = len data.
Proof.
  intros H. apply lstm_predict_inv in H.
  destruct H as (dist & errors & p & _ & _ & H).
  apply set_slice_length in H. rewrite repeat_length in H. exact H.
Qed.

(** The first [l] entries and the last [l - 1] entries are never written. *)
Lemma lstm_padding_is_zero (self : LSTM_AD.t B) data scores (i : nat) :
  LSTM_AD.predict self data = Ok scores ->
  i < len data ->
  (Z.of_nat i < LSTM_AD._l_preds self \/
   Z.of_nat (len data) - LSTM_AD._l_preds self + 1 <= Z.of_nat i)%Z ->
  nth i scores 0%Q = 0%Q.
Proof.
  intros H Hi Hpad. apply lstm_predict_inv in H.
  destruct H as (dist & errors & p & _ & _ & H).
  rewrite (set_slice_outside 0%Q _ _ _ _ H).
  - apply nth_repeat.
  - rewrite repeat_length. cbn [slice_start slice_stop]. unfold norm_index.
    destruct (LSTM_AD._l_preds self <? 0)%Z eqn:E1;
      destruct (- LSTM_AD._l_preds self + 1 <? 0)%Z eqn:E2; lia.
Qed.

Lemma Qlt_bool_iff (x y : Q) : LSTM_AD.Qlt_bool x y = true <-> (x < y)%Q.
Proof.
  unfold LSTM_AD.Qlt_bool. rewrite negb_true_iff.
  split; intros H.
  - apply Qnot_le_lt. intros Hle. apply Qle_bool_iff in Hle. congruence.
  - destruct (Qle_bool y x) eqn:E; [|reflexivity].
    apply Qle_bool_iff in E. exfalso. exact (Qlt_not_le _ _ H E).
Qed.

(** C10. With a positive threshold, [detect] flags every padded entry of the
    score array: the flag is 1 exactly where the score is strictly below the
    threshold, and the padded entries hold the score 0. *)
Theorem lstm_detect_flags_padding (self : LSTM_AD.t B) data mask :
  (0 < LSTM_AD._threshold self)%Q ->
  LSTM_AD.detect self data = Ok mask ->
  exists scores,
    LSTM_AD.predict self data = Ok scores /\
    length mask = len data /\
    (forall i, i < len data ->
       (nth i mask 0%Z = 1%Z <->
        (nth i scores 0 < LSTM_AD._threshold self)%Q)) /\
    (forall i, i < len data ->
       (Z.of_nat i < LSTM_AD._l_preds self \/
        Z.of_nat (len data) - LSTM_AD._l_preds self + 1 <= Z.of_nat i)%Z ->
       nth i scores 0%Q = 0%Q /\ nth i mask 0%Z = 1%Z).
Proof.
  intros Hthr Hdet. unfold LSTM_AD.detect in Hdet.
  destruct (LSTM_AD.predict self data) as [scores|e] eqn:Hp; [|discriminate].
  cbn [bind] in Hdet. inversion Hdet; subst mask. clear Hdet.
  pose proof (lstm_predict_length _ _ Hp) as Hlen.
  set (f := fun s : Q =>
              if LSTM_AD.Qlt_bool s (LSTM_AD._threshold self)
              then 1%Z else 0%Z).
  assert (Hnth : forall i, i < len data ->
            nth i (map f scores) 0%Z = f (nth i scores 0%Q)).
  { intros i Hi.
    rewrite (nth_indep (map f scores) 0%Z (f 0%Q))
      by (rewrite length_map; lia).
    apply map_nth. }
  exists scores. split; [reflexivity|].
  split; [rewrite length_map; exact Hlen|]. split.
  - intros i Hi. change (map _ scores) with (map f scores).
    rewrite (Hnth i Hi). unfold f.
    destruct (LSTM_AD.Qlt_bool (nth i scores 0%Q) (LSTM_AD._threshold self))
      eqn:E.
    + apply Qlt_bool_iff in E. tauto.
    + split; [discriminate|]. intros Hlt. apply Qlt_bool_iff in Hlt.
      congruence.
  - intros i Hi Hpad.
    pose proof (@lstm_padding_is_zero self data scores i Hp Hi Hpad) as Hz.
    split; [exact Hz|]. change (map _ scores) with (map f scores).
    rewrite (Hnth i Hi), Hz. unfold f.
    replace (LSTM_AD.Qlt_bool 0 (LSTM_AD._threshold self)) with true;
      [reflexivity|].
    symmetry. apply Qlt_bool_iff. exact Hthr.
Qed.

(** Without a model [predict] stops at [self.model.eval()]. *)
Lemma lstm_untrained_raises l_predictions hidden_size threshold data :
  let self := LSTM_AD.__init__ B l_predictions hidden_size threshold in
  LSTM_AD.predict self data = Raise AttributeError /\
  LSTM_AD.detect self data = Raise AttributeError.
Proof. split; reflexivity. Qed.

End LstmProps.

(** ** The training transformation of LSTM_AD *)

Lemma has_shape_lengths T D tab :
  has_shape T D tab -> map (@length Q) tab = repeat D T.
Proof.
  intros [<- H]. induction H as [|r tab Hr _ IH]; simpl; [reflexivity|].
  rewrite Hr, IH. reflexivity.
Qed.

Lemma has_shape_sub T D tab i k :
  has_shape T D tab -> i + k <= T ->
  has_shape k D (firstn k (skipn i tab)).
Proof.
  intros [HT HD] Hik. split.
  - rewrite length_firstn, length_skipn. lia.
  - apply Forall_forall. intros r Hr.
    apply (proj1 (Forall_forall _ _) HD). eapply In_firstn_skipn. exact Hr.
Qed.

(** Stacking tables of one shape [(T, D)], each wrapped in a batch axis of
    length 1, along a new last axis. *)
Lemma np_stack_axis3_tables (T D : nat) (tabs : list (list (list Q))) :
  tabs <> [] ->
  Forall (has_shape T D) tabs ->
  LSTM_AD.np_stack_axis3 (map (fun tab => [tab]) tabs) =
  Ok [map (fun t =>
        map (fun j => map (fun tab => nth j (nth t tab []) 0%Q) tabs)
            (seq 0 D))
        (seq 0 T)].
Proof.
  intros Hne Hall. destruct tabs as [|tab0 rest]; [congruence|].
  unfold LSTM_AD.np_stack_axis3. cbn [map].
  assert (Hshape : forall tab, In tab (tab0 :: rest) ->
                     LSTM_AD.shape3 [tab] = [repeat D T]).
  { intros tab Hin. unfold LSTM_AD.shape3. cbn [map]. f_equal.
    apply has_shape_lengths. exact (proj1 (Forall_forall _ _) Hall tab Hin). }
  assert (Hcheck :
            forallb (fun a =>
                       if list_eq_dec (list_eq_dec Nat.eq_dec)
                            (LSTM_AD.shape3 a) (LSTM_AD.shape3 [tab0])
                       then true else false)
                    ([tab0] :: map (fun tab => [tab]) rest) = true).
  { apply forallb_forall. intros a Ha.
    change ([tab0] :: map (fun tab => [tab]) rest)
      with (map (fun tab : list (list Q) => [tab]) (tab0 :: rest)) in Ha.
    apply in_map_iff in Ha. destruct Ha as [tab [<- Hin]].
    rewrite (Hshape tab Hin), (Hshape tab0 (or_introl eq_refl)).
    destruct (list_eq_dec (list_eq_dec Nat.eq_dec) [repeat D T] [repeat D T]);
      [reflexivity|congruence]. }
  rewrite Hcheck. cbn [length seq map nth].
  pose proof (proj1 (Forall_forall _ _) Hall tab0 (or_introl eq_refl))
    as [HT0 HD0].
  rewrite HT0. do 2 f_equal.
  apply map_ext_in. intros t Ht. apply in_seq in Ht.
  assert (Hlen : length (nth t tab0 []) = D).
  { apply (proj1 (Forall_forall _ _) HD0). apply nth_In. lia. }
  rewrite Hlen. apply map_ext. intros j.
  cbn [map nth]. f_equal. rewrite map_map. reflexivity.
Qed.

Lemma range_as_seq (n : nat) : LSTM_AD.range (Z.of_nat n) = map Z.of_nat (seq 0 n).
Proof. unfold LSTM_AD.range. rewrite Nat2Z.id. reflexivity. Qed.

(** The slices [_transform_train_data_target] stacks: lag [i] is the table
    shifted by [1 + i] steps and cut to [n - l] rows. *)
Lemma lstm_target_slices (tab : list (list Q)) (l : nat) :
  0 < l -> l < length tab ->
  map (fun i => LSTM_AD.slice_axis1 [tab] (Some (1 + i)%Z)
                  (Some (- Z.of_nat l + i + 1)%Z))
      (LSTM_AD.range (Z.of_nat l - 1))
  ++ [LSTM_AD.slice_axis1 [tab] (Some (Z.of_nat l)) None]
  = map (fun tab => [tab])
        (map (fun i => firstn (length tab - l) (skipn (1 + i) tab)) (seq 0 l)).
Proof.
  intros Hl Hn.
  replace (Z.of_nat l - 1)%Z with (Z.of_nat (l - 1)) by lia.
  rewrite range_as_seq.
  replace (seq 0 l) with (seq 0 (l - 1) ++ [l - 1])
    by (rewrite <- seq_S; f_equal; lia).
  rewrite !map_app, !map_map. f_equal.
  - apply map_ext_in. intros i Hi. apply in_seq in Hi.
    unfold LSTM_AD.slice_axis1, slice. cbn [map slice_start slice_stop].
    unfold norm_index.
    destruct (1 + Z.of_nat i <? 0)%Z eqn:E1; [lia|].
    destruct (- Z.of_nat l + Z.of_nat i + 1 <? 0)%Z eqn:E2; [|lia].
    do 2 f_equal; [lia|f_equal; lia].
  - cbn [map]. unfold LSTM_AD.slice_axis1, slice.
    cbn [map slice_start slice_stop]. unfold norm_index.
    destruct (Z.of_nat l <? 0)%Z eqn:E1; [lia|].
    do 3 f_equal; [lia|f_equal; lia].
Qed.

(** C6. For a series of n rows and a horizon 0 < l < n the training input is
    [x_1 .. x_(n-l)] and the target at position t is the slice
    [x_(t+1) .. x_(t+l)], signal by signal (positions counted from 0 in the
    statement: input [t] is row [t], its target holds rows [t+1 .. t+l]). *)
Theorem lstm_train_targets (B : LSTM_AD.Backend) (self : LSTM_AD.t B)
  (data : DataFrame) :
  wf data ->
  (0 < LSTM_AD._l_preds self)%Z ->
  (LSTM_AD._l_preds self < Z.of_nat (len data))%Z ->
  let n := len data in
  let l := Z.to_nat (LSTM_AD._l_preds self) in
  exists targets,
    LSTM_AD._transform_train_data_target self data =
      Ok ([firstn (n - l) (rows data)], [targets]) /\
    length targets = n - l /\
    forall t, t < n - l ->
      nth t (firstn (n - l) (rows data)) [] = nth t (rows data) [] /\
      forall j, j < ncols data ->
        nth j (nth t targets []) [] =
        map (fun i => nth j (nth (t + 1 + i) (rows data) []) 0%Q) (seq 0 l).
Proof.
  intros [_ Hrect] Hpos Hlt n l.
  assert (HL : LSTM_AD._l_preds self = Z.of_nat l) by lia.
  assert (Hshape : has_shape n (ncols data) (rows data)) by (split; auto).
  unfold LSTM_AD._transform_train_data_target, LSTM_AD.expand_dims.
  rewrite HL.
  rewrite (@lstm_target_slices (rows data) l) by (unfold len in *; lia).
  rewrite (@np_stack_axis3_tables (n - l) (ncols data)).
  - cbn [bind]. eexists. split.
    + f_equal. f_equal.
      unfold LSTM_AD.slice_axis1, slice. cbn [map slice_start slice_stop].
      unfold norm_index.
      destruct (- Z.of_nat l <? 0)%Z eqn:E; [|lia].
      rewrite skipn_O. do 2 f_equal. unfold n, len. lia.
    + split; [rewrite length_map, length_seq; reflexivity|].
      intros t Ht. split.
      * rewrite nth_firstn. destruct (Nat.ltb_spec t (n - l)); [reflexivity|lia].
      * intros j Hj.
        set (F := fun t0 : nat => _).
        rewrite (nth_indep _ [] (F 0))
          by (rewrite length_map, length_seq; exact Ht).
        rewrite (map_nth F), seq_nth by exact Ht. unfold F. cbn [plus].
        set (G := fun j0 : nat => _).
        rewrite (nth_indep _ [] (G 0))
          by (rewrite length_map, length_seq; exact Hj).
        rewrite (map_nth G), seq_nth by exact Hj. unfold G. cbn [plus].
        rewrite map_map. apply map_ext. intros i.
        rewrite nth_firstn, nth_skipn.
        destruct (Nat.ltb_spec t (length (rows data) - l)) as [_|Hge];
          [|unfold n, len in Ht; lia].
        do 2 f_equal. lia.
  - destruct l; [lia|]. cbn. discriminate.
  - apply Forall_forall. intros tab Htab.
    apply in_map_iff in Htab. destruct Htab as [i [<- Hi]].
    apply in_seq in Hi. unfold n, len.
    apply (@has_shape_sub (length (rows data)) (ncols data)); [exact Hshape|].
    unfold len in Hlt. lia.
Qed.

(** ** Donut *)

Lemma add_rows_length (a b : list Q) :
  length a = length b -> length (add_rows a b) = length a.
Proof.
  intros H. unfold add_rows. rewrite length_map, length_combine. lia.
Qed.

Lemma add_rows_nth (a b : list Q) (t : nat) :
  length a = length b -> t < length a ->
  nth t (add_rows a b) 0%Q = (nth t a 0 + nth t b 0)%Q.
Proof.
  intros Hab Ht. unfold add_rows.
  set (f := fun p : Q * Q => (fst p + snd p)%Q).
  rewrite (nth_indep _ 0%Q (f (0%Q, 0%Q)))
    by (rewrite length_map, length_combine; lia).
  rewrite (map_nth f), combine_nth by exact Hab. reflexivity.
Qed.

(** Adding the rows up along axis 0 gives, at every position, the sum of the
    entries at that position. *)
Lemma fold_add_rows (rest : list (list Q)) (r0 : list Q) :
  Forall (fun r => length r = length r0) rest ->
  length (fold_left add_rows rest r0) = length r0 /\
  forall t, t < length r0 ->
    (nth t (fold_left add_rows rest r0) 0 ==
     nth t r0 0 + sumQ (map (fun r => nth t r 0) rest))%Q.
Proof.
  revert r0. induction rest as [|r rest IH]; intros r0 Hall; cbn [fold_left].
  - split; [reflexivity|]. intros t _. unfold sumQ. cbn [map fold_right]. ring.
  - inversion Hall as [|? ? Hr Hrest]; subst.
    assert (Hlen : length (add_rows r0 r) = length r0)
      by (apply add_rows_length; congruence).
    destruct (IH (add_rows r0 r)) as [H1 H2].
    { rewrite Hlen. exact Hrest. }
    split; [congruence|].
    intros t Ht. rewrite H2 by lia.
    rewrite add_rows_nth by (congruence || assumption).
    unfold sumQ. cbn [map fold_right]. ring.
Qed.

(** [np.mean(results, axis=0)] of a non-empty list of rows is, position by
    position, the arithmetic mean over the rows. *)
Lemma np_mean_axis0_spec (results : list (list Q)) (scores : list Q) :
  np_mean_axis0 results = Ok (array scores) ->
  results <> [] /\
  Forall (fun r => length r = length scores) results /\
  forall t, t < length scores ->
    (nth t scores 0 ==
     sumQ (map (fun r => nth t r 0) results)
     / inject_Z (Z.of_nat (length results)))%Q.
Proof.
  unfold np_mean_axis0. destruct results as [|r0 rest]; [discriminate|].
  destruct (forallb (fun r => length r =? length r0) rest) eqn:E;
    [|discriminate].
  intros H. injection H as Hs.
  assert (Hall : Forall (fun r => length r = length r0) rest).
  { apply Forall_forall. intros r Hr.
    apply Nat.eqb_eq. exact (proj1 (forallb_forall _ _) E r Hr). }
  destruct (@fold_add_rows rest r0 Hall) as [Hlen Hsum].
  assert (Hls : length scores = length r0)
    by (rewrite <- Hs, length_map; exact Hlen).
  split; [discriminate|]. split.
  - constructor; [congruence|].
    eapply Forall_impl; [|exact Hall]. cbn. intros; congruence.
  - intros t Ht. rewrite <- Hs.
    set (f := fun s : Q => (s / inject_Z (Z.of_nat (length (r0 :: rest))))%Q).
    rewrite (nth_indep _ 0%Q (f 0%Q)) by (rewrite length_map; lia).
    rewrite (map_nth f). unfold f.
    rewrite Hsum by lia. unfold sumQ. cbn [map fold_right]. reflexivity.
Qed.

Section DonutProps.

Variable L : Donut.Lib.

Lemma donut_predict_columns_length (self : Donut.t L) cols i ts results :
  Donut.predict_columns self i ts cols = Ok results ->
  length results = length cols.
Proof.
  revert i ts results. induction cols as [|c cols IH]; intros i ts results H.
  - inversion H. reflexivity.
  - cbn [Donut.predict_columns] in H.
    destruct (Donut.complete_timestamp L ts c (Donut.zeros_like c))
      as [[[ts' missing] [values labels]]|e]; [|discriminate].
    cbn [bind] in H.
    destruct (nth_error (Donut._sessions self) i); [|discriminate].
    destruct (nth_error (Donut._predictors self) i); [|discriminate].
    destruct (Donut.get_score L _ _ values missing); [|discriminate].
    cbn [bind] in H.
    destruct (Donut.predict_columns self (S i) ts' cols) eqn:E;
      [|discriminate].
    inversion H. cbn [length]. f_equal. eapply IH. exact E.
Qed.

(** C8. The score [predict] returns at a timestamp is the arithmetic mean,
    over the columns of the windowed table, of the per-column scores at that
    timestamp. *)
Theorem donut_score_is_column_mean (self : Donut.t L) data scores :
  Donut.predict self data = Ok (array scores) ->
  exists windowed per_column,
    Utils.window_data data (Z.to_nat (Donut._window_size self)) = Ok windowed /\
    Donut.predict_columns self 0 (index windowed) (items windowed)
      = Ok per_column /\
    length per_column = ncols windowed /\
    0 < length per_column /\
    Forall (fun r => length r = length scores) per_column /\
    forall t, t < length scores ->
      (nth t scores 0 ==
       sumQ (map (fun column_scores => nth t column_scores 0) per_column)
       / inject_Z (Z.of_nat (length per_column)))%Q.
Proof.
  unfold Donut.predict. intros H.
  destruct (Utils.window_data data (Z.to_nat (Donut._window_size self)))
    as [windowed|e]; [|discriminate].
  cbn [bind] in H.
  destruct (Donut.predict_columns self 0 (index windowed) (items windowed))
    as [results|e] eqn:Eres; [|discriminate].
  cbn [bind] in H.
  exists windowed, results.
  destruct (@np_mean_axis0_spec results scores H) as (Hne & Hall & Hmean).
  split; [reflexivity|]. split; [exact Eres|]. split.
  - erewrite donut_predict_columns_length by exact Eres.
    unfold items. rewrite length_map, length_seq. reflexivity.
  - split; [destruct results; [congruence|cbn; lia]|]. auto.
Qed.

End DonutProps.

Section DonutState.

Variable L : Donut.Lib.

(** [train] only ever appends: one model, predictor and session per column,
    behind whatever the lists already hold. *)
Lemma donut_train_columns_appends cols (self : Donut.t L) ts self' :
  Donut.train_columns self ts cols = (self', Ok tt) ->
  exists ms ss,
    Donut._models self' = Donut._models self ++ ms /\
    Donut._sessions self' = Donut._sessions self ++ ss /\
    Donut._predictors self' = Donut._predictors self ++ ms /\
    length ms = length cols /\
    length ss = length cols /\
    Donut._window_size self' = Donut._window_size self.
Proof.
  revert self ts. induction cols as [|c cols IH]; intros self ts H.
  - inversion H; subst self'. exists [], [].
    rewrite !app_nil_r. repeat split; reflexivity.
  - cbn [Donut.train_columns] in H.
    destruct (Donut.complete_timestamp L ts c (Donut.zeros_like c))
      as [[[ts' missing] [values labels]]|e]; [|inversion H].
    destruct (Donut.standardize_kpi L values
                (Donut.logical_or labels missing)) as [[tv mean] std].
    cbn [Donut._build_model] in H.
    match type of H with
    | context [Donut.trainer_fit L ?m tv labels missing mean std] =>
        destruct (Donut.trainer_fit L m tv labels missing mean std)
          as [session|e]; [set (model := m) in *|inversion H]
    end.
    apply IH in H. destruct H as (ms & ss & Hm & Hs & Hp & Hlm & Hls & Hw).
    cbn [Donut.append Donut._models Donut._sessions Donut._predictors
         Donut._window_size] in *.
    exists (model :: ms), (session :: ss).
    rewrite Hm, Hs, Hp, <- !app_assoc. cbn [app length].
    repeat split; congruence.
Qed.

Lemma donut_train_appends (self : Donut.t L) data epochs self' :
  Donut.train self data epochs = (self', Ok tt) ->
  exists ms ss,
    Donut._sessions self' = Donut._sessions self ++ ss /\
    Donut._predictors self' = Donut._predictors self ++ ms /\
    length ms = ncols data * Z.to_nat (Donut._window_size self) /\
    length ss = ncols data * Z.to_nat (Donut._window_size self) /\
    Donut._window_size self' = Donut._window_size self.
Proof.
  unfold Donut.train, Utils.window_data. intros H.
  destruct (length (rows data) <? Z.to_nat (Donut._window_size self));
    [inversion H|].
  apply donut_train_columns_appends in H.
  destruct H as (ms & ss & _ & Hs & Hp & Hlm & Hls & Hw).
  unfold items in Hlm, Hls. cbn [ncols] in Hlm, Hls.
  rewrite length_map, length_seq in Hlm, Hls.
  exists ms, ss. auto.
Qed.

(** [predict] looks sessions and predictors up by column number, counted
    from 0: what lies behind the first [i + #columns] entries is never
    read. *)
Lemma donut_predict_columns_prefix cols (self self' : Donut.t L) ss ps i ts :
  Donut._sessions self' = Donut._sessions self ++ ss ->
  Donut._predictors self' = Donut._predictors self ++ ps ->
  i + length cols <= length (Donut._sessions self) ->
  i + length cols <= length (Donut._predictors self) ->
  Donut.predict_columns self' i ts cols = Donut.predict_columns self i ts cols.
Proof.
  intros Hs Hp. revert i ts.
  induction cols as [|c cols IH]; intros i ts H1 H2; [reflexivity|].
  cbn [length] in H1, H2. cbn [Donut.predict_columns].
  destruct (Donut.complete_timestamp L ts c (Donut.zeros_like c))
    as [[[ts' missing] [values labels]]|e]; [|reflexivity].
  cbn [bind]. rewrite Hs, Hp.
  rewrite !nth_error_app1 by lia.
  destruct (nth_error (Donut._sessions self) i); [|reflexivity].
  destruct (nth_error (Donut._predictors self) i); [|reflexivity].
  destruct (Donut.get_score L _ _ values missing); [|reflexivity].
  cbn [bind]. rewrite IH by lia. reflexivity.
Qed.

(** C9 (Donut). After a second successful [train], [predict] on a table that
    is no wider than the first training table gives what it gave before the
    second call: it reads the sessions and predictors of the first call. *)
Theorem donut_second_train_is_ignored (self0 self1 self2 : Donut.t L)
  d1 d2 data epochs1 epochs2 :
  Donut.train self0 d1 epochs1 = (self1, Ok tt) ->
  Donut.train self1 d2 epochs2 = (self2, Ok tt) ->
  ncols data <= ncols d1 ->
  Donut.predict self2 data = Donut.predict self1 data.
Proof.
  intros H1 H2 Hw.
  apply donut_train_appends in H1.
  destruct H1 as (ms1 & ss1 & Hs1 & Hp1 & Hlm1 & Hls1 & Hw1).
  apply donut_train_appends in H2.
  destruct H2 as (ms2 & ss2 & Hs2 & Hp2 & _ & _ & Hw2).
  unfold Donut.predict. rewrite Hw2.
  destruct (Utils.window_data data (Z.to_nat (Donut._window_size self1)))
    as [wd|e] eqn:Ewd; [|reflexivity].
  cbn [bind].
  assert (Hcols : length (items wd) <=
                  ncols d1 * Z.to_nat (Donut._window_size self0)).
  { unfold Utils.window_data in Ewd.
    destruct (length (rows data) <? Z.to_nat (Donut._window_size self1));
      [discriminate|].
    inversion Ewd. unfold items. cbn [ncols].
    rewrite length_map, length_seq, Hw1.
    apply Nat.mul_le_mono_r. exact Hw. }
  rewrite (@donut_predict_columns_prefix (items wd) self1 self2 ss2 ms2);
    [reflexivity|assumption|assumption| |].
  - rewrite Hs1, length_app. lia.
  - rewrite Hp1, length_app. lia.
Qed.

(** A [Donut] that was never trained has no session for column 0. *)
Lemma donut_untrained_predict_raises window_size data :
  0 < ncols data -> (0 < window_size)%Z ->
  raises (Donut.predict (Donut.__init__ L window_size) data).
Proof.
  intros HD HW. unfold Donut.predict.
  destruct (Utils.window_data data
              (Z.to_nat (Donut._window_size (Donut.__init__ L window_size))))
    as [wd|e] eqn:Ewd; [|eexists; reflexivity].
  cbn [bind].
  assert (Hcols : exists c cols, items wd = c :: cols).
  { unfold Utils.window_data in Ewd.
    destruct (length (rows data) <? _); [discriminate|].
    inversion Ewd. unfold items. cbn [ncols Donut.__init__ Donut._window_size].
    destruct (ncols data * Z.to_nat window_size) eqn:E; [lia|].
    cbn [seq map]. eauto. }
  destruct Hcols as (c & cols & ->).
  cbn [Donut.predict_columns].
  destruct (Donut.complete_timestamp L (index wd) c (Donut.zeros_like c))
    as [[[ts' missing] [values labels]]|e]; cbn [bind];
    eexists; reflexivity.
Qed.

End DonutState.

(** ** Never-trained detectors *)

(** C7 (as the code has it). Before any [train], [predict] and [detect] of
    AutoEncoder and LSTM_AD raise for every input, and so does [predict] of
    Donut on every table with at least one column (window size at least 1);
    Donut's [detect] is unimplemented, never calls [predict], and returns
    [None] without raising. *)
Theorem untrained_detectors (B : LSTM_AD.Backend) (L : Donut.Lib)
  (data : DataFrame) (window_size latent_size : Z) (layers : list Z)
  (threshold : Q) (l_predictions hidden_size : Z) :
  let ae := AutoEncoder.__init__ window_size latent_size layers threshold in
  let lstm := LSTM_AD.__init__ B l_predictions hidden_size threshold in
  let donut := Donut.__init__ L window_size in
  raises (AutoEncoder.predict ae data) /\
  raises (AutoEncoder.detect ae data) /\
  raises (LSTM_AD.predict lstm data) /\
  raises (LSTM_AD.detect lstm data) /\
  (0 < ncols data -> (0 < window_size)%Z ->
   raises (Donut.predict donut data)) /\
  Donut.detect donut data = Ok None.
Proof.
  intros ae lstm donut.
  destruct (ae_untrained_raises window_size latent_size layers threshold data)
    as [H1 H2].
  repeat split; try assumption.
  - exists AttributeError. reflexivity.
  - exists AttributeError. reflexivity.
  - intros HD HW. apply donut_untrained_predict_raises; assumption.
Qed.

(** ** LSTM_AD: which entries are padding *)

(** C2 (as the code has it). For a horizon l >= 2 and more than 2l rows, the
    first l entries of the score array and the last l - 1 entries are the
    neutral 0, but the entry at position n - l, which is one of the last l,
    holds one of the likelihoods [p]. *)
Theorem lstm_last_block_holds_a_score (B : LSTM_AD.Backend)
  (self : LSTM_AD.t B) (data : DataFrame) (scores : list Q) :
  let n := len data in
  let l := Z.to_nat (LSTM_AD._l_preds self) in
  (2 <= LSTM_AD._l_preds self)%Z ->
  2 * l < n ->
  LSTM_AD.predict self data = Ok scores ->
  (forall i, i < l -> nth i scores 0%Q = 0%Q) /\
  (forall i, n - l < i < n -> nth i scores 0%Q = 0%Q) /\
  exists dist errors p,
    LSTM_AD._error_dist self = Some dist /\
    LSTM_AD.ed_call B dist errors = Ok p /\
    In (nth (n - l) scores 0%Q) p.
Proof.
  intros n l HL Hn Hp. split; [|split].
  - intros i Hi. apply (@lstm_padding_is_zero B self data scores i Hp);
      fold n; lia.
  - intros i Hi. apply (@lstm_padding_is_zero B self data scores i Hp);
      fold n; lia.
  - destruct (lstm_predict_inv _ _ Hp) as (dist & errors & p & Hd & Hc & Hs).
    exists dist, errors, p. split; [exact Hd|]. split; [exact Hc|].
    destruct (set_slice_inv _ _ _ _ Hs) as (q & Hq & Hqp & ->).
    rewrite repeat_length in *. fold n in Hq |- *.
    cbn [slice_start slice_stop] in *. unfold norm_index in *.
    destruct (LSTM_AD._l_preds self <? 0)%Z eqn:E1; [lia|].
    destruct (- LSTM_AD._l_preds self + 1 <? 0)%Z eqn:E2; [|lia].
    replace (Nat.min (Z.to_nat (LSTM_AD._l_preds self)) n) with l in * by lia.
    replace (Z.to_nat (Z.max 0 (- LSTM_AD._l_preds self + 1 + Z.of_nat n)))
      with (n - l + 1) in * by lia.
    rewrite app_nth2; rewrite length_firstn, repeat_length; [|lia].
    rewrite app_nth1 by lia.
    assert (Hin : In (nth (n - l - Nat.min l n) q 0%Q) q)
      by (apply nth_In; lia).
    destruct Hqp as [<-|(x & -> & Hrep)]; [exact Hin|].
    rewrite Hrep in Hin. apply repeat_spec in Hin. left. congruence.
Qed.

(** ** The detectors on concrete tables *)


Lemma ramp_wf (start : Z) (n : nat) : wf (Fixtures.ramp start n).
Proof.
  unfold wf, Fixtures.ramp, Fixtures.table. cbn [index rows ncols]. split.
  - rewrite length_map, length_seq. reflexivity.
  - apply Forall_forall. intros r Hr. apply in_map_iff in Hr.
    destruct Hr as [i [<- _]]. reflexivity.
Defined.

Lemma window_data_shape_witness :
  wf (Fixtures.ramp 1 4) /\
  exists out,
    Utils.window_data (Fixtures.ramp 1 4) 2 = Ok out /\
    len out = 3 /\ ncols out = 2 /\
    nth 1 (rows out) [] = [inject_Z 2; inject_Z 3].
Proof.
  split; [apply ramp_wf|].
  destruct (proj1 (@window_data_shape (Fixtures.ramp 1 4) 2 (ramp_wf 1 4)))
    as (out & Hout & Hlen & Hcols & _ & Hrows).
  - by_eval.
  - exists out. split; [exact Hout|]. split; [exact Hlen|].
    split; [exact Hcols|]. apply (Hrows 1). by_eval.
Defined.


Lemma lstm_train_targets_witness :
  wf (Fixtures.ramp 1 7) /\
  exists targets,
    LSTM_AD._transform_train_data_target
      (LSTM_AD.__init__ Fixtures.lstm_backend 3 400 (9 # 10))
      (Fixtures.ramp 1 7)
    = Ok ([firstn 4 (rows (Fixtures.ramp 1 7))], [targets]) /\
    nth 0 (nth 0 targets []) [] = [inject_Z 2; inject_Z 3; inject_Z 4].
Proof.
  split; [apply ramp_wf|].
  destruct (@lstm_train_targets Fixtures.lstm_backend
              (LSTM_AD.__init__ Fixtures.lstm_backend 3 400 (9 # 10))
              (Fixtures.ramp 1 7) (ramp_wf 1 7))
    as (targets & Ht & _ & Hnth).
  - by_eval.
  - by_eval.
  - exists targets. split; [exact Ht|].
    apply (proj2 (Hnth 0 ltac:(by_eval)) 0). by_eval.
Defined.

Lemma lstm_detect_flags_padding_witness :
  (0 < LSTM_AD._threshold Fixtures.lstm_trained)%Q /\
  LSTM_AD.detect Fixtures.lstm_trained (Fixtures.ramp 1 5)
    = Ok [1; 1; 1; 1; 1]%Z /\
  exists scores,
    LSTM_AD.predict Fixtures.lstm_trained (Fixtures.ramp 1 5) = Ok scores /\
    nth 4 scores 0%Q = 0%Q.
Proof.
  assert (Hthr : (0 < LSTM_AD._threshold Fixtures.lstm_trained)%Q)
    by reflexivity.
  assert (Hd : LSTM_AD.detect Fixtures.lstm_trained (Fixtures.ramp 1 5)
               = Ok [1; 1; 1; 1; 1]%Z) by (vm_compute; reflexivity).
  split; [exact Hthr|]. split; [exact Hd|].
  destruct (lstm_detect_flags_padding _ _ Hthr Hd)
    as (scores & Hs & _ & _ & Hpad).
  exists scores. split; [exact Hs|].
  apply (Hpad 4); [by_eval|right; by_eval].
Defined.

Lemma lstm_last_block_holds_a_score_witness :
  (2 <= LSTM_AD._l_preds Fixtures.lstm_trained)%Z /\
  2 * Z.to_nat (LSTM_AD._l_preds Fixtures.lstm_trained)
    < len (Fixtures.ramp 1 5) /\
  LSTM_AD.predict Fixtures.lstm_trained (Fixtures.ramp 1 5)
    = Ok [0; 0; 1 # 9; 1 # 9; 0]%Q /\
  exists dist errors p,
    LSTM_AD.ed_call Fixtures.lstm_backend dist errors = Ok p /\
    In (1 # 9)%Q p.
Proof.
  assert (HL : (2 <= LSTM_AD._l_preds Fixtures.lstm_trained)%Z)
    by by_eval.
  assert (Hn : 2 * Z.to_nat (LSTM_AD._l_preds Fixtures.lstm_trained)
               < len (Fixtures.ramp 1 5)) by by_eval.
  assert (Hp : LSTM_AD.predict Fixtures.lstm_trained (Fixtures.ramp 1 5)
               = Ok [0; 0; 1 # 9; 1 # 9; 0]%Q) by (vm_compute; reflexivity).
  split; [exact HL|]. split; [exact Hn|]. split; [exact Hp|].
  destruct (proj2 (proj2 (@lstm_last_block_holds_a_score _ _ _ _ HL Hn Hp)))
    as (dist & errors & p & _ & Hc & Hin).
  exists dist, errors, p. split; [exact Hc|exact Hin].
Defined.

Lemma donut_score_is_column_mean_witness :
  Donut.predict Fixtures.donut_windowed (Fixtures.ramp 1 125)
    = Ok (array [238 # 2; 240 # 2; 242 # 2; 244 # 2; 246 # 2]%Q) /\
  exists per_column,
    length per_column = 2 /\
    (238 # 2 ==
     sumQ (map (fun column_scores => nth 0 column_scores 0) per_column)
     / inject_Z (Z.of_nat (length per_column)))%Q.
Proof.
  assert (Hp : Donut.predict Fixtures.donut_windowed (Fixtures.ramp 1 125)
               = Ok (array [238 # 2; 240 # 2; 242 # 2; 244 # 2; 246 # 2]%Q))
    by (vm_compute; reflexivity).
  split; [exact Hp|].
  destruct (donut_score_is_column_mean _ _ Hp)
    as (windowed & per_column & Hw & _ & Hlen & _ & _ & Hmean).
  exists per_column. split.
  - rewrite Hlen. vm_compute in Hw. inversion Hw. reflexivity.
  - apply (Hmean 0). by_eval.
Defined.

Lemma donut_second_train_is_ignored_witness :
  Donut.train Fixtures.donut_new (Fixtures.ramp 1 125) 0
    = (Fixtures.donut_once, Ok tt) /\
  Donut.train Fixtures.donut_once (Fixtures.ramp 1001 125) 0
    = (Fixtures.donut_twice, Ok tt) /\
  ncols (Fixtures.ramp 1001 125) <= ncols (Fixtures.ramp 1 125) /\
  Donut.predict Fixtures.donut_twice (Fixtures.ramp 1001 125)
    = Donut.predict Fixtures.donut_once (Fixtures.ramp 1001 125).
Proof.
  assert (H1 : Donut.train Fixtures.donut_new (Fixtures.ramp 1 125) 0
               = (Fixtures.donut_once, Ok tt)) by (vm_compute; reflexivity).
  assert (H2 : Donut.train Fixtures.donut_once (Fixtures.ramp 1001 125) 0
               = (Fixtures.donut_twice, Ok tt)) by (vm_compute; reflexivity).
  assert (H3 : ncols (Fixtures.ramp 1001 125) <= ncols (Fixtures.ramp 1 125))
    by by_eval.
  split; [exact H1|]. split; [exact H2|]. split; [exact H3|].
  eapply donut_second_train_is_ignored; [exact H1|exact H2|exact H3].
Defined.

(** After training on the ramp from 1 and then on the ramp from 1001, the
    scores of the second ramp are measured against the first training (its
    session remembers 1), not against the second (which remembers 1001, as a
    detector trained only on the second ramp shows). *)
Lemma donut_retrained_differs_from_fresh :
  Donut._sessions Fixtures.donut_twice = [inject_Z 1; inject_Z 1001] /\
  Donut.predict Fixtures.donut_twice (Fixtures.ramp 1001 125)
    = Ok (array (map inject_Z [1119; 1120; 1121; 1122; 1123; 1124]%Z)) /\
  Donut._sessions Fixtures.donut_fresh = [inject_Z 1001] /\
  Donut.predict Fixtures.donut_fresh (Fixtures.ramp 1001 125)
    = Ok (array (map inject_Z [119; 120; 121; 122; 123; 124]%Z)).
Proof. repeat split; vm_compute; reflexivity. Qed.

(** C1 (Donut). [Donut.predict] does not pad: with window size 2 a table of
    125 timestamps is scored at 5 of them (124 windows, of which the
    predictor scores those that close a run of [x_dims = 120] points). *)
Theorem donut_predict_is_shorter_than_input :
  snd (Donut.train (Donut.__init__ Fixtures.donut_lib 2)
         (Fixtures.ramp 1 125) 0) = Ok tt /\
  len (Fixtures.ramp 1 125) = 125 /\
  exists scores,
    Donut.predict Fixtures.donut_windowed (Fixtures.ramp 1 125)
      = Ok (array scores) /\
    length scores = 5.
Proof.
  split; [vm_compute; reflexivity|]. split; [vm_compute; reflexivity|].
  eexists. split; [vm_compute; reflexivity|reflexivity].
Qed.

(** C7, as stated, fails for Donut: on a never-trained instance [detect]
    returns without raising. *)
Lemma donut_detect_untrained_does_not_raise :
  ~ raises (Donut.detect Fixtures.donut_new (Fixtures.ramp 1 3)).
Proof. intros [e H]. discriminate H. Qed.

Lemma untrained_detectors_witness :
  0 < ncols (Fixtures.ramp 1 3) /\
  (0 < 1)%Z /\
  raises (Donut.predict Fixtures.donut_new (Fixtures.ramp 1 3)) /\
  raises (AutoEncoder.predict
            (AutoEncoder.__init__ 1 100 [500; 200]%Z (8 # 10))
            (Fixtures.ramp 1 3)).
Proof.
  assert (HD : 0 < ncols (Fixtures.ramp 1 3)) by by_eval.
  assert (HW : (0 < 1)%Z) by by_eval.
  split; [exact HD|]. split; [exact HW|].
  destruct (untrained_detectors Fixtures.lstm_backend Fixtures.donut_lib
              (Fixtures.ramp 1 3) 1 100 [500; 200]%Z (8 # 10) 10 400)
    as (Hae & _ & _ & _ & Hdonut & _).
  split; [exact (Hdonut HD HW)|exact Hae].
Defined.

(** ** Training again *)

(** AutoEncoder and LSTM_AD replace their trained state: a successful
    [train] ends in the same state whatever an earlier [train] left behind
    (Donut appends instead). *)
Lemma ae_train_replaces_state fit self self1 d1 epochs1 lr1 d2 epochs2 lr2 s :
  AutoEncoder.train fit self d1 epochs1 lr1 = (self1, Ok tt) ->
  AutoEncoder.train fit self d2 epochs2 lr2 = (s, Ok tt) ->
  AutoEncoder.train fit self1 d2 epochs2 lr2 = (s, Ok tt).
Proof.
  intros H1 H2.
  assert (Hcfg : AutoEncoder._window_size self1 = AutoEncoder._window_size self
                 /\ AutoEncoder._layers self1 = AutoEncoder._layers self
                 /\ AutoEncoder._latent_size self1 = AutoEncoder._latent_size self
                 /\ AutoEncoder._threshold self1 = AutoEncoder._threshold self).
  { unfold AutoEncoder.train in H1.
    destruct (if (AutoEncoder._window_size self >? 1)%Z
              then AutoEncoder._transform_data self d1 else Ok d1)
      as [td|e]; [|inversion H1].
    destruct (rows td) as [|row0 rest]; [inversion H1|].
    match type of H1 with
    | context [AutoEncoder._compute_threshold ?x ?y] =>
        destruct (AutoEncoder._compute_threshold x y); inversion H1
    end.
    repeat split; reflexivity. }
  destruct Hcfg as (HW & Hl & Hlat & Hthr).
  destruct self as [m0 layers W inp lat thr mx].
  destruct self1 as [m1 layers1 W1 inp1 lat1 thr1 mx1].
  cbn in HW, Hl, Hlat, Hthr. subst W1 layers1 lat1 thr1.
  clear H1. unfold AutoEncoder.train, AutoEncoder._transform_data in *.
  cbn [AutoEncoder._window_size] in *.
  destruct (if (W >? 1)%Z then Utils.window_data d2 (Z.to_nat W) else Ok d2)
    as [td|e]; [|inversion H2].
  destruct (rows td) as [|row0 rest]; [inversion H2|].
  unfold AutoEncoder._compute_threshold, AutoEncoder.set_model,
    AutoEncoder.set_input_size, AutoEncoder.set_max_error in *.
  cbn [AutoEncoder.model AutoEncoder._layers AutoEncoder._window_size
       AutoEncoder._input_size AutoEncoder._latent_size
       AutoEncoder._threshold AutoEncoder._max_error] in *.
  match type of H2 with
  | match ?c with _ => _ end = _ => destruct c; [exact H2|inversion H2]
  end.
Qed.

Lemma lstm_train_replaces_state (B : LSTM_AD.Backend)
  (self self1 s : LSTM_AD.t B) d1 epochs1 lr1 d2 epochs2 lr2 :
  LSTM_AD.train self d1 epochs1 lr1 = (self1, Ok tt) ->
  LSTM_AD.train self d2 epochs2 lr2 = (s, Ok tt) ->
  LSTM_AD.train self1 d2 epochs2 lr2 = (s, Ok tt).
Proof.
  intros H1 H2.
  assert (Hcfg : LSTM_AD._l_preds self1 = LSTM_AD._l_preds self
                 /\ LSTM_AD._hidden_size self1 = LSTM_AD._hidden_size self
                 /\ LSTM_AD._threshold self1 = LSTM_AD._threshold self).
  { unfold LSTM_AD.train in H1.
    destruct (LSTM_AD._transform_train_data_target self d1)
      as [[td tt1]|e]; [|inversion H1].
    unfold LSTM_AD._train_model, LSTM_AD._initialize_model in H1.
    cbn [LSTM_AD.model LSTM_AD.set_error_dist LSTM_AD.set_model] in H1.
    match type of H1 with
    | context [LSTM_AD.run_train_loop B ?m ?a ?b ?c ?d] =>
        destruct (LSTM_AD.run_train_loop B m a b c d); [|inversion H1]
    end.
    unfold LSTM_AD._fit_error_distribution in H1.
    cbn [LSTM_AD.model LSTM_AD._error_dist LSTM_AD.set_error_dist
         LSTM_AD.set_model] in H1.
    match type of H1 with
    | context [LSTM_AD._transform_eval_data_target ?x ?y] =>
        destruct (LSTM_AD._transform_eval_data_target x y)
    end.
    match type of H1 with
    | context [bind ?c ?k] => destruct (bind c k); inversion H1
    end.
    repeat split; reflexivity. }
  destruct Hcfg as (HL & Hh & Hthr).
  destruct self as [m0 thr hid l d0 e0].
  destruct self1 as [m1 thr1 hid1 l1 d1' e1].
  cbn in HL, Hh, Hthr. subst l1 hid1 thr1.
  clear H1.
  unfold LSTM_AD.train, LSTM_AD._transform_train_data_target in *.
  cbn [LSTM_AD._l_preds] in *.
  match type of H2 with
  | match ?c with _ => _ end = _ =>
      destruct c as [[td tt2]|e]; [|inversion H2]
  end.
  unfold LSTM_AD._train_model, LSTM_AD._initialize_model,
    LSTM_AD.set_error_dist, LSTM_AD.set_model, LSTM_AD.set_d_size in *.
  cbn [LSTM_AD.model LSTM_AD._threshold LSTM_AD._hidden_size
       LSTM_AD._l_preds LSTM_AD._d_size LSTM_AD._error_dist] in *.
  match type of H2 with
  | context [LSTM_AD.run_train_loop B ?m ?a ?b ?c ?d] =>
      destruct (LSTM_AD.run_train_loop B m a b c d); [|inversion H2]
  end.
  unfold LSTM_AD._fit_error_distribution, LSTM_AD._transform_eval_data_target,
    LSTM_AD._get_model_outputs, LSTM_AD._reshape_outputs,
    LSTM_AD.set_error_dist in *.
  cbn [LSTM_AD.model LSTM_AD._threshold LSTM_AD._hidden_size
       LSTM_AD._l_preds LSTM_AD._d_size LSTM_AD._error_dist] in *.
  match type of H2 with
  | match ?c with _ => _ end = _ => destruct c; [exact H2|inversion H2]
  end.
Qed.

(** ** Donut: how many scores *)

(** Whatever the [donut] package computes, as long as it gives at most one
    score per value and the index has no gaps for [complete_timestamp] to
    fill, [Donut.predict] returns at most one score per window: nothing
    pads the result back to the length of the input. *)
Lemma donut_predict_at_most_one_score_per_window (L : Donut.Lib)
  (self : Donut.t L) (data : DataFrame) (scores : list Q) :
  (forall ts v l ts' m v' l',
     Donut.complete_timestamp L ts v l = Ok (ts', m, (v', l')) ->
     length v' = length v) ->
  (forall p s v m r, Donut.get_score L p s v m = Ok r -> length r <= length v) ->
  Donut.predict self data = Ok (array scores) ->
  length scores + Z.to_nat (Donut._window_size self) <= len data + 1.
Proof.
  intros Hct Hgs H. unfold Donut.predict in H.
  destruct (Utils.window_data data (Z.to_nat (Donut._window_size self)))
    as [wd|e] eqn:Ewd; [|discriminate].
  cbn [bind] in H.
  destruct (Donut.predict_columns self 0 (index wd) (items wd))
    as [results|e] eqn:Eres; [|discriminate].
  cbn [bind] in H.
  destruct (@np_mean_axis0_spec results scores H) as (Hne & Hall & _).
  unfold Utils.window_data in Ewd.
  destruct (Nat.ltb_spec (length (rows data))
              (Z.to_nat (Donut._window_size self))) as [|HW]; [discriminate|].
  injection Ewd as Ewd.
  assert (Hrows : length (rows wd) =
                  len data - Z.to_nat (Donut._window_size self) + 1).
  { rewrite <- Ewd. cbn [rows]. rewrite length_map, length_seq. reflexivity. }
  destruct results as [|r0 results]; [congruence|].
  apply Forall_inv in Hall. rename Hall into Hr0.
  unfold items in Eres.
  destruct (seq 0 (ncols wd)) as [|j js]; [discriminate|].
  cbn [map Donut.predict_columns] in Eres.
  set (c0 := map (fun r => nth j r 0%Q) (rows wd)) in *.
  destruct (Donut.complete_timestamp L (index wd) c0 (Donut.zeros_like c0))
    as [[[ts' missing] [values labels]]|e] eqn:Ect; [|discriminate].
  cbn [bind] in Eres.
  destruct (nth_error (Donut._sessions self) 0); [|discriminate].
  destruct (nth_error (Donut._predictors self) 0); [|discriminate].
  destruct (Donut.get_score L _ _ values missing) as [r|e] eqn:Egs;
    [|discriminate].
  cbn [bind] in Eres.
  destruct (Donut.predict_columns self 1 ts' _); [|discriminate].
  injection Eres as -> _.
  apply Hgs in Egs. apply Hct in Ect.
  assert (Hc0 : length c0 = length (rows wd)) by (apply length_map).
  unfold len in *. lia.
Qed.

(** * Further properties of the detectors *)

(** ** The networks of the auto-encoder *)

Lemma expected_layers_cons (a b : Z) (l : list Z) :
  expected_layers (a :: b :: l) =
  AutoEncoder.Linear a b :: expected_layers (b :: l).
Proof. reflexivity. Qed.

Lemma build_layers_inner (a : Z) (l : list Z) (output_size : Z) :
  map (fun i => AutoEncoder.Linear (nth (i - 1) (a :: l) 0%Z)
                                   (nth i (a :: l) 0%Z))
      (seq 1 (length (a :: l) - 1))
  ++ [AutoEncoder.Linear (last (a :: l) 0%Z) output_size]
  = expected_layers (a :: l ++ [output_size]).
Proof.
  revert a. induction l as [|b l IH]; intros a; [reflexivity|].
  replace (length (a :: b :: l) - 1) with (S (length l)) by (simpl; lia).
  cbn [seq map app].
  rewrite expected_layers_cons.
  f_equal.
  rewrite <- (IH b).
  replace (length (b :: l) - 1) with (length l) by (simpl; lia).
  change (last (a :: b :: l) 0%Z) with (last (b :: l) 0%Z).
  f_equal.
  rewrite <- (seq_shift (length l) 1), map_map.
  apply map_ext_in. intros i Hi. apply in_seq in Hi.
  destruct i as [|i]; [lia|].
  replace (S (S i) - 1) with (S i) by lia.
  replace (S i - 1) with i by lia.
  reflexivity.
Qed.

Lemma build_layers_expected (input_size : Z) (layers : list Z)
  (output_size : Z) :
  AutoEncoder._build_layers input_size layers output_size =
  expected_layers (input_size :: layers ++ [output_size]).
Proof.
  destruct layers as [|first rest]; [reflexivity|].
  unfold AutoEncoder._build_layers.
  cbn [app]. rewrite expected_layers_cons. f_equal.
  apply build_layers_inner.
Qed.

Lemma build_network_cons (x y : AutoEncoder.nn_Module) l :
  AutoEncoder._build_network (x :: y :: l) =
  x :: AutoEncoder.ReLU :: AutoEncoder._build_network (y :: l).
Proof. reflexivity. Qed.

Lemma every_second_build_network (layers : list AutoEncoder.nn_Module) :
  layers <> [] ->
  every_second (AutoEncoder._build_network layers) = layers.
Proof.
  induction layers as [|x [|y l] IH]; intros Hne; [congruence|reflexivity|].
  rewrite build_network_cons. cbn [every_second]. f_equal.
  apply IH. discriminate.
Qed.

Lemma expected_layers_nonempty (a b : Z) (l : list Z) :
  expected_layers (a :: l ++ [b]) <> [].
Proof. destruct l; discriminate. Qed.

(** X1. The property [test_build_custom_network_auto_encoder] checks: the
    linear layers of the encoder (every second module) run through the sizes
    (input, *layers, latent), and those of the decoder through the same sizes
    in reverse. *)
Theorem ae_linear_layers_follow_schedule (input_size latent_size : Z)
  (layers : list Z) (weights : list Q -> list Q) :
  let m := AutoEncoder._AEModel__init__ input_size latent_size layers weights in
  let expected_enc_sizes := input_size :: layers ++ [latent_size] in
  every_second (AutoEncoder.encoder m) = expected_layers expected_enc_sizes /\
  every_second (AutoEncoder.decoder m) =
    expected_layers (rev expected_enc_sizes).
Proof.
  intros m sizes. unfold m, sizes, AutoEncoder._AEModel__init__,
    AutoEncoder._get_encoder, AutoEncoder._get_decoder.
  cbn [AutoEncoder.encoder AutoEncoder.decoder].
  rewrite !build_layers_expected. split.
  - apply every_second_build_network, expected_layers_nonempty.
  - rewrite every_second_build_network by apply expected_layers_nonempty.
    f_equal. cbn [rev]. rewrite rev_app_distr. reflexivity.
Qed.

Lemma build_network_length (layers : list AutoEncoder.nn_Module) :
  layers <> [] ->
  length (AutoEncoder._build_network layers) = 2 * length layers - 1.
Proof.
  induction layers as [|x [|y l] IH]; intros Hne; [congruence|reflexivity|].
  rewrite build_network_cons. cbn [length] in *.
  rewrite IH by discriminate. lia.
Qed.

(** X2. [_build_network] puts a [ReLU] after every layer but the last: a
    stack of k layers becomes 2k-1 modules, the layers at the even positions
    in their order and a [ReLU] at every odd position. *)
Theorem ae_network_relu_after_each_but_last
  (layers : list AutoEncoder.nn_Module) :
  layers <> [] ->
  let network := AutoEncoder._build_network layers in
  length network = 2 * length layers - 1 /\
  (forall i, i < length layers ->
     nth (2 * i) network AutoEncoder.ReLU = nth i layers AutoEncoder.ReLU) /\
  (forall i, i + 1 < length layers ->
     nth (2 * i + 1) network (AutoEncoder.Linear 0 0) = AutoEncoder.ReLU).
Proof.
  intros Hne network. split; [apply build_network_length; exact Hne|].
  unfold network. clear network.
  induction layers as [|x [|y l] IH]; [congruence| |].
  - split; intros i Hi; cbn [length] in Hi.
    + replace i with 0 by lia. reflexivity.
    + lia.
  - rewrite build_network_cons.
    destruct IH as [IH1 IH2]; [discriminate|]. split.
    + intros [|i] Hi; [reflexivity|].
      replace (2 * S i) with (S (S (2 * i))) by lia.
      cbn [nth]. apply IH1. cbn [length] in *. lia.
    + intros [|i] Hi; [reflexivity|].
      replace (2 * S i + 1) with (S (S (2 * i + 1))) by lia.
      cbn [nth]. apply IH2. cbn [length] in *. lia.
Qed.

Lemma ae_network_relu_after_each_but_last_witness :
  AutoEncoder._build_layers 14 [500; 200]%Z 100 <> [] /\
  length (AutoEncoder._get_encoder 14 [500; 200]%Z 100) = 5 /\
  nth 3 (AutoEncoder._get_encoder 14 [500; 200]%Z 100)
      (AutoEncoder.Linear 0 0) = AutoEncoder.ReLU.
Proof.
  assert (Hne : AutoEncoder._build_layers 14 [500; 200]%Z 100 <> [])
    by discriminate.
  split; [exact Hne|].
  destruct (@ae_network_relu_after_each_but_last _ Hne) as (Hlen & _ & Hrelu).
  split; [exact Hlen|]. apply (Hrelu 1). by_eval.
Defined.

(** ** AutoEncoder: scores, errors and thresholds *)

Lemma window_data_ok (data out : DataFrame) (W : nat) :
  wf data ->
  Utils.window_data data W = Ok out ->
  W <= len data /\
  length (rows out) = len data - W + 1 /\
  Forall (fun r => length r = ncols data * W) (rows out).
Proof.
  intros [_ Hrect]. unfold Utils.window_data, len.
  destruct (Nat.ltb_spec (length (rows data)) W) as [|HW]; [discriminate|].
  intros H. injection H as <-. cbn [rows].
  split; [exact HW|]. split; [rewrite length_map, length_seq; reflexivity|].
  apply Forall_forall. intros r Hr.
  apply in_map_iff in Hr. destruct Hr as [i [<- Hi]]. apply in_seq in Hi.
  rewrite (length_concat_const (D := ncols data)).
  - rewrite length_firstn, length_skipn. f_equal. lia.
  - apply Forall_forall. intros x Hx.
    apply (proj1 (Forall_forall _ _) Hrect). eapply In_firstn_skipn. exact Hx.
Qed.

(** The samples [train] and [predict] iterate over all have
    [ncols * max(W, 1)] entries. *)
Lemma ae_sample_sizes (self : AutoEncoder.t) (data td : DataFrame) :
  wf data ->
  (if (AutoEncoder._window_size self >? 1)%Z
   then AutoEncoder._transform_data self data
   else Ok data) = Ok td ->
  Forall (fun r => length r =
                   ncols data * Z.to_nat (Z.max (AutoEncoder._window_size self) 1))
         (rows td) /\
  (0 < len data -> rows td <> []).
Proof.
  intros Hwf H.
  destruct (Z.gtb_spec (AutoEncoder._window_size self) 1) as [HW|HW].
  - unfold AutoEncoder._transform_data in H.
    destruct (@window_data_ok data td _ Hwf H) as (Hle & Hlen & Hall).
    replace (Z.max (AutoEncoder._window_size self) 1)
      with (AutoEncoder._window_size self) by lia.
    split; [exact Hall|]. intros _ E. rewrite E in Hlen. cbn in Hlen. lia.
  - injection H as <-.
    replace (Z.max (AutoEncoder._window_size self) 1) with 1%Z by lia.
    split.
    + eapply Forall_impl; [|exact (proj2 Hwf)]. cbn. intros r ->. lia.
    + intros Hpos E. unfold len in Hpos. rewrite E in Hpos. cbn in Hpos. lia.
Qed.

Lemma encoder_first_layer (input_size latent_size : Z) (layers : list Z)
  (weights : list Q -> list Q) :
  exists out rest,
    AutoEncoder.encoder
      (AutoEncoder._AEModel__init__ input_size latent_size layers weights)
    = AutoEncoder.Linear input_size out :: rest.
Proof.
  unfold AutoEncoder._AEModel__init__, AutoEncoder._get_encoder.
  cbn [AutoEncoder.encoder]. rewrite build_layers_expected.
  destruct layers as [|a l]; [cbn; eauto|].
  cbn [app]. rewrite expected_layers_cons.
  destruct (expected_layers (a :: l ++ [latent_size])) as [|y r] eqn:E.
  - exfalso. exact (expected_layers_nonempty a latent_size l E).
  - rewrite build_network_cons. eauto.
Qed.

(** The model a successful [train] builds takes samples of the size of the
    first training sample. *)
Lemma ae_train_model fit self train_data epochs lr self' :
  AutoEncoder.train fit self train_data epochs lr = (self', Ok tt) ->
  exists td row0 rest weights,
    (if (AutoEncoder._window_size self >? 1)%Z
     then AutoEncoder._transform_data self train_data
     else Ok train_data) = Ok td /\
    rows td = row0 :: rest /\
    AutoEncoder._window_size self' = AutoEncoder._window_size self /\
    AutoEncoder._input_size self' = length row0 /\
    AutoEncoder.model self' =
      Some (AutoEncoder._AEModel__init__ (Z.of_nat (length row0))
              (AutoEncoder._latent_size self) (AutoEncoder._layers self)
              weights).
Proof.
  unfold AutoEncoder.train. intros H.
  destruct (if (AutoEncoder._window_size self >? 1)%Z
            then AutoEncoder._transform_data self train_data
            else Ok train_data) as [td|e] eqn:Etd; [|inversion H].
  destruct (rows td) as [|row0 rest] eqn:Erows; [inversion H|].
  match type of H with
  | context [AutoEncoder._compute_threshold ?x ?y] =>
      destruct (AutoEncoder._compute_threshold x y); inversion H
  end.
  exists td, row0, rest. eexists.
  repeat split; try reflexivity. exact Erows.
Qed.

(** X3. Whenever [AutoEncoder.predict] returns, it returns one score per row
    of its input, and the first W-1 of them are the zero padding. *)
Theorem ae_predict_is_padded (self : AutoEncoder.t) (data : DataFrame)
  (scores : list Q) :
  AutoEncoder.predict self data = Ok scores ->
  length scores = len data /\
  forall i, (Z.of_nat i < AutoEncoder._window_size self - 1)%Z ->
    nth i scores 0%Q = 0%Q.
Proof.
  intros H. split; [exact (ae_predict_length _ _ H)|].
  apply ae_predict_inv in H. destruct H as (input & m & errs & _ & _ & _ & ->).
  intros i Hi. rewrite app_nth1 by (rewrite repeat_length; lia).
  apply nth_repeat.
Qed.

Lemma ae_predict_is_padded_witness :
  AutoEncoder.predict Fixtures.ae_trained (Fixtures.ramp 1 4)
    = Ok [0; 0 # 2; 2 # 2; 8 # 2]%Q /\
  length [0; 0 # 2; 2 # 2; 8 # 2]%Q = len (Fixtures.ramp 1 4).
Proof.
  assert (H : AutoEncoder.predict Fixtures.ae_trained (Fixtures.ramp 1 4)
              = Ok [0; 0 # 2; 2 # 2; 8 # 2]%Q) by (vm_compute; reflexivity).
  split; [exact H|]. exact (proj1 (ae_predict_is_padded _ _ H)).
Defined.

(** X4. [AutoEncoder.train] raises, and leaves the detector exactly as it
    was, when the window is larger than the table (W > 1) or when the table
    has no rows (W <= 1, the [iloc[0]] lookup). *)
Theorem ae_train_rejects_short_tables fit (self : AutoEncoder.t)
  (data : DataFrame) (epochs : nat) (lr : Q) :
  ((1 < AutoEncoder._window_size self)%Z /\
   len data < Z.to_nat (AutoEncoder._window_size self)) \/
  ((AutoEncoder._window_size self <= 1)%Z /\ len data = 0) ->
  fst (AutoEncoder.train fit self data epochs lr) = self /\
  raises (snd (AutoEncoder.train fit self data epochs lr)).
Proof.
  unfold AutoEncoder.train, AutoEncoder._transform_data, Utils.window_data, len.
  intros [[HW Hlen]|[HW Hlen]].
  - destruct (Z.gtb_spec (AutoEncoder._window_size self) 1); [|lia].
    destruct (Nat.ltb_spec (length (rows data))
                (Z.to_nat (AutoEncoder._window_size self))); [|lia].
    split; [reflexivity|eexists; reflexivity].
  - destruct (Z.gtb_spec (AutoEncoder._window_size self) 1); [lia|].
    destruct (rows data); [|discriminate].
    split; [reflexivity|eexists; reflexivity].
Qed.

Lemma ae_train_rejects_short_tables_witness :
  (((1 < 5)%Z /\ len (Fixtures.ramp 1 4) < Z.to_nat 5) \/
   ((5 <= 1)%Z /\ len (Fixtures.ramp 1 4) = 0)) /\
  fst (AutoEncoder.train Fixtures.ae_fit
         (AutoEncoder.__init__ 5 100 [500; 200]%Z (8 # 10))
         (Fixtures.ramp 1 4) 20 (1 # 10000))
  = AutoEncoder.__init__ 5 100 [500; 200]%Z (8 # 10).
Proof.
  assert (H : ((1 < 5)%Z /\ len (Fixtures.ramp 1 4) < Z.to_nat 5) \/
              ((5 <= 1)%Z /\ len (Fixtures.ramp 1 4) = 0)).
  { left. split; by_eval. }
  split; [exact H|].
  exact (proj1 (@ae_train_rejects_short_tables Fixtures.ae_fit
                  (AutoEncoder.__init__ 5 100 [500; 200]%Z (8 # 10))
                  (Fixtures.ramp 1 4) 20 (1 # 10000) H)).
Defined.

(** X5. A trained AutoEncoder refuses a table with another number of
    columns: [predict] and [detect] raise on every non-empty table whose
    column count differs from that of the training table. *)
Theorem ae_column_mismatch_raises fit (self self' : AutoEncoder.t)
  (d1 d2 : DataFrame) (epochs : nat) (lr : Q) :
  wf d1 -> wf d2 ->
  AutoEncoder.train fit self d1 epochs lr = (self', Ok tt) ->
  ncols d2 <> ncols d1 ->
  0 < len d2 ->
  raises (AutoEncoder.predict self' d2) /\
  raises (AutoEncoder.detect self' d2).
Proof.
  intros Hwf1 Hwf2 Htrain Hcols Hlen.
  assert (Hp : raises (AutoEncoder.predict self' d2)).
  { destruct (ae_train_model _ _ _ _ _ Htrain)
      as (td & row0 & rest & weights & Htd & Hrows & HW & _ & Hm).
    destruct (@ae_sample_sizes self d1 td Hwf1 Htd) as [Hsz1 _].
    rewrite Hrows in Hsz1. apply Forall_inv in Hsz1.
    destruct (encoder_first_layer (Z.of_nat (length row0))
                (AutoEncoder._latent_size self) (AutoEncoder._layers self)
                weights) as (out & layers & Henc).
    destruct (if (AutoEncoder._window_size self' >? 1)%Z
              then AutoEncoder._transform_data self' d2
              else Ok d2) as [input|e] eqn:Ein.
    - destruct (@ae_sample_sizes self' d2 input Hwf2 Ein) as [Hsz2 Hne].
      destruct (rows input) as [|s0 samples] eqn:Einput;
        [exfalso; apply (Hne Hlen); reflexivity|].
      apply Forall_inv in Hsz2. rewrite HW in Hsz2.
      assert (Hfw : AutoEncoder.forward
                      (AutoEncoder._AEModel__init__ (Z.of_nat (length row0))
                         (AutoEncoder._latent_size self)
                         (AutoEncoder._layers self) weights) s0
                    = Raise RuntimeError).
      { unfold AutoEncoder.forward. rewrite Henc.
        destruct (Z.eqb_spec (Z.of_nat (length s0)) (Z.of_nat (length row0)))
          as [E|_]; [|reflexivity].
        exfalso. apply Nat2Z.inj in E. rewrite Hsz1, Hsz2 in E.
        apply Nat.mul_cancel_r in E; [auto|lia]. }
      exists RuntimeError. unfold AutoEncoder.predict.
      unfold AutoEncoder._data_to_tensors.
      destruct (AutoEncoder._window_size self' >? 1)%Z.
      + rewrite Ein. cbn [bind]. rewrite Hm, Einput.
        unfold AutoEncoder.reconstruction_errors. cbn [mapM].
        rewrite Hfw. reflexivity.
      + injection Ein as ->. cbn [bind]. rewrite Hm, Einput.
        unfold AutoEncoder.reconstruction_errors. cbn [mapM].
        rewrite Hfw. reflexivity.
    - exists e. unfold AutoEncoder.predict.
      destruct (AutoEncoder._window_size self' >? 1)%Z; [|discriminate].
      rewrite Ein. reflexivity. }
  split; [exact Hp|].
  destruct Hp as [e He]. exists e. unfold AutoEncoder.detect.
  rewrite He. reflexivity.
Qed.

Lemma two_columns_wf : wf Fixtures.two_columns.
Proof. split; [reflexivity|repeat constructor]. Defined.

Lemma ae_column_mismatch_raises_witness :
  wf (Fixtures.ramp 1 4) /\ wf Fixtures.two_columns /\
  AutoEncoder.train Fixtures.ae_fit
    (AutoEncoder.__init__ 2 100 [500; 200]%Z (8 # 10))
    (Fixtures.ramp 1 4) 20 (1 # 10000) = (Fixtures.ae_trained, Ok tt) /\
  ncols Fixtures.two_columns <> ncols (Fixtures.ramp 1 4) /\
  0 < len Fixtures.two_columns /\
  raises (AutoEncoder.predict Fixtures.ae_trained Fixtures.two_columns).
Proof.
  assert (Ht : AutoEncoder.train Fixtures.ae_fit
                 (AutoEncoder.__init__ 2 100 [500; 200]%Z (8 # 10))
                 (Fixtures.ramp 1 4) 20 (1 # 10000)
               = (Fixtures.ae_trained, Ok tt)) by reflexivity.
  assert (Hc : ncols Fixtures.two_columns <> ncols (Fixtures.ramp 1 4))
    by by_eval.
  assert (Hl : 0 < len Fixtures.two_columns) by by_eval.
  split; [apply ramp_wf|]. split; [apply two_columns_wf|].
  split; [exact Ht|]. split; [exact Hc|]. split; [exact Hl|].
  exact (proj1 (@ae_column_mismatch_raises _ _ _ _ _ _ _
                  (ramp_wf 1 4) two_columns_wf Ht Hc Hl)).
Defined.

(** X8. A second successful [AutoEncoder.train] ends in the state the same
    call reaches from the detector as it was before the first one: model,
    input size and max error are all replaced, nothing of the first training
    survives. *)
Theorem ae_retrain_forgets_first fit (self self1 s : AutoEncoder.t)
  (d1 d2 : DataFrame) (epochs1 epochs2 : nat) (lr1 lr2 : Q) :
  AutoEncoder.train fit self d1 epochs1 lr1 = (self1, Ok tt) ->
  AutoEncoder.train fit self d2 epochs2 lr2 = (s, Ok tt) ->
  AutoEncoder.train fit self1 d2 epochs2 lr2 = (s, Ok tt).
Proof. apply ae_train_replaces_state. Qed.

Lemma ae_retrain_forgets_first_witness :
  AutoEncoder.train Fixtures.ae_fit
    (AutoEncoder.__init__ 2 100 [500; 200]%Z (8 # 10))
    (Fixtures.ramp 1 4) 20 (1 # 10000) = (Fixtures.ae_trained, Ok tt) /\
  AutoEncoder.train Fixtures.ae_fit
    (AutoEncoder.__init__ 2 100 [500; 200]%Z (8 # 10))
    (Fixtures.ramp 11 6) 20 (1 # 10000)
  = (fst (AutoEncoder.train Fixtures.ae_fit
            (AutoEncoder.__init__ 2 100 [500; 200]%Z (8 # 10))
            (Fixtures.ramp 11 6) 20 (1 # 10000)), Ok tt) /\
  AutoEncoder.train Fixtures.ae_fit Fixtures.ae_trained
    (Fixtures.ramp 11 6) 20 (1 # 10000)
  = (fst (AutoEncoder.train Fixtures.ae_fit
            (AutoEncoder.__init__ 2 100 [500; 200]%Z (8 # 10))
            (Fixtures.ramp 11 6) 20 (1 # 10000)), Ok tt).
Proof.
  assert (H1 : AutoEncoder.train Fixtures.ae_fit
                 (AutoEncoder.__init__ 2 100 [500; 200]%Z (8 # 10))
                 (Fixtures.ramp 1 4) 20 (1 # 10000)
               = (Fixtures.ae_trained, Ok tt)) by reflexivity.
  assert (H2 : AutoEncoder.train Fixtures.ae_fit
                 (AutoEncoder.__init__ 2 100 [500; 200]%Z (8 # 10))
                 (Fixtures.ramp 11 6) 20 (1 # 10000)
               = (fst (AutoEncoder.train Fixtures.ae_fit
                         (AutoEncoder.__init__ 2 100 [500; 200]%Z (8 # 10))
                         (Fixtures.ramp 11 6) 20 (1 # 10000)), Ok tt))
    by reflexivity.
  split; [exact H1|]. split; [exact H2|].
  exact (@ae_retrain_forgets_first _ _ _ _ _ _ _ _ _ _ H1 H2).
Defined.

(** ** LSTM_AD: layout of the scores and of the tensors *)



(** X10. With a horizon of one step the stop [-l+1] of the evaluation
    slices is 0: the evaluation targets are empty, every score [predict]
    returns is the neutral 0, and with a positive threshold [detect] flags
    every row. *)
Theorem lstm_one_step_scores_nothing (B : LSTM_AD.Backend)
  (self : LSTM_AD.t B) (data : DataFrame) :
  LSTM_AD._l_preds self = 1%Z ->
  snd (LSTM_AD._transform_eval_data_target self data) = [[]] /\
  (forall scores,
     LSTM_AD.predict self data = Ok scores ->
     scores = repeat 0%Q (len data)) /\
  (forall mask,
     (0 < LSTM_AD._threshold self)%Q ->
     LSTM_AD.detect self data = Ok mask ->
     mask = repeat 1%Z (len data)).
Proof.
  intros HL.
  assert (Hscores : forall scores,
            LSTM_AD.predict self data = Ok scores ->
            scores = repeat 0%Q (len data)).
  { intros scores Hp.
    destruct (lstm_predict_inv _ _ Hp) as (dist & errors & p & _ & _ & Hs).
    destruct (set_slice_inv _ _ _ _ Hs) as (q & Hq & _ & ->).
    rewrite HL in *. rewrite repeat_length in *.
    cbn [slice_start slice_stop] in *. unfold norm_index in *.
    cbn [Z.ltb Z.compare Z.opp Z.add Pos.add Z.pos_sub Z.to_nat] in *.
    rewrite Nat.min_0_l in *. cbn [Nat.sub] in *.
    destruct q; [|discriminate]. cbn [app]. rewrite Nat.add_0_r.
    apply firstn_skipn. }
  split; [|split; [exact Hscores|]].
  - unfold LSTM_AD._transform_eval_data_target, LSTM_AD.expand_dims,
      LSTM_AD.slice_axis1, slice. rewrite HL. cbn [snd map].
    cbn [slice_start slice_stop]. unfold norm_index.
    cbn [Z.ltb Z.compare Z.opp Z.add Pos.add Z.pos_sub Z.to_nat].
    rewrite Nat.min_0_l. reflexivity.
  - intros mask Hthr Hdet. unfold LSTM_AD.detect in Hdet.
    destruct (LSTM_AD.predict self data) as [scores|e] eqn:Hp; [|discriminate].
    cbn [bind] in Hdet. injection Hdet as <-.
    rewrite (Hscores scores eq_refl), map_repeat. f_equal.
    replace (LSTM_AD.Qlt_bool 0 (LSTM_AD._threshold self)) with true;
      [reflexivity|].
    symmetry. apply Qlt_bool_iff. exact Hthr.
Qed.

Lemma lstm_one_step_scores_nothing_witness :
  LSTM_AD._l_preds Fixtures.lstm_one_step = 1%Z /\
  LSTM_AD.predict Fixtures.lstm_one_step (Fixtures.ramp 1 5)
    = Ok [0; 0; 0; 0; 0]%Q /\
  [0; 0; 0; 0; 0]%Q = repeat 0%Q (len (Fixtures.ramp 1 5)).
Proof.
  assert (HL : LSTM_AD._l_preds Fixtures.lstm_one_step = 1%Z) by reflexivity.
  assert (Hp : LSTM_AD.predict Fixtures.lstm_one_step (Fixtures.ramp 1 5)
               = Ok [0; 0; 0; 0; 0]%Q) by (vm_compute; reflexivity).
  split; [exact HL|]. split; [exact Hp|].
  exact (proj1 (proj2 (@lstm_one_step_scores_nothing _ _
                         (Fixtures.ramp 1 5) HL)) _ Hp).
Defined.

Lemma chunks_succ (n k : nat) (v : list Q) :
  LSTM_AD.chunks (S n) k v = firstn k v :: LSTM_AD.chunks n k (skipn k v).
Proof.
  unfold LSTM_AD.chunks. cbn [seq map]. f_equal.
  rewrite <- seq_shift, map_map. apply map_ext. intros j.
  rewrite skipn_skipn. do 2 f_equal. lia.
Qed.

Lemma concat_chunks (n k : nat) (v : list Q) :
  length v = n * k -> concat (LSTM_AD.chunks n k v) = v.
Proof.
  revert v. induction n as [|n IH]; intros v Hv.
  - destruct v; [reflexivity|discriminate].
  - rewrite chunks_succ. cbn [concat]. rewrite IH.
    + apply firstn_skipn.
    + rewrite length_skipn, Hv. cbn [Nat.mul]. lia.
Qed.

(** X11. [_reshape_outputs] is the row-major reshape to (d1, d2, d, l): the
    prediction for signal j at lag i is entry j*l+i of the network's output
    vector, and flattening the result gives the output back. *)
Theorem lstm_reshape_outputs_roundtrip (B : LSTM_AD.Backend)
  (self : LSTM_AD.t B) (output : LSTM_AD.tensor3) (r : LSTM_AD.tensor4) :
  LSTM_AD._reshape_outputs self output = Ok r ->
  map (map (@concat Q)) r = output /\
  forall b t j i,
    b < length output -> t < length (nth b output []) ->
    j < LSTM_AD._d_size self -> i < Z.to_nat (LSTM_AD._l_preds self) ->
    nth i (nth j (nth t (nth b r []) []) []) 0%Q =
    nth (j * Z.to_nat (LSTM_AD._l_preds self) + i)
        (nth t (nth b output []) []) 0%Q.
Proof.
  unfold LSTM_AD._reshape_outputs.
  set (d := LSTM_AD._d_size self). set (l := Z.to_nat (LSTM_AD._l_preds self)).
  destruct (0 <=? LSTM_AD._l_preds self)%Z; [|discriminate].
  cbn [andb].
  destruct (forallb (forallb (fun v => length v =? d * l)) output) eqn:E;
    [|discriminate].
  intros H. injection H as <-. split.
  - rewrite map_map. rewrite <- (map_id output) at 2.
    apply map_ext_in. intros tab Htab.
    rewrite map_map. rewrite <- (map_id tab) at 2.
    apply map_ext_in. intros v Hv.
    apply concat_chunks. apply Nat.eqb_eq.
    pose proof (proj1 (forallb_forall _ _) E tab Htab) as E'.
    exact (proj1 (forallb_forall _ _) E' v Hv).
  - intros b t j i Hb Ht Hj Hi.
    rewrite (nth_indep _ [] (map (LSTM_AD.chunks d l) []))
      by (rewrite length_map; exact Hb).
    rewrite (map_nth (map (LSTM_AD.chunks d l))).
    rewrite (nth_indep _ [] (LSTM_AD.chunks d l []))
      by (rewrite length_map; exact Ht).
    rewrite (map_nth (LSTM_AD.chunks d l)).
    unfold LSTM_AD.chunks.
    set (v := nth t (nth b output []) []).
    set (F := fun j0 : nat => firstn l (skipn (j0 * l) v)).
    rewrite (nth_indep _ [] (F 0)) by (rewrite length_map, length_seq; exact Hj).
    rewrite (map_nth F), seq_nth by exact Hj. unfold F. cbn [plus].
    rewrite nth_firstn, nth_skipn.
    destruct (Nat.ltb_spec i l); [reflexivity|lia].
Qed.

Lemma lstm_reshape_outputs_roundtrip_witness :
  LSTM_AD._reshape_outputs Fixtures.lstm_trained
    [[map inject_Z [1; 2]%Z; map inject_Z [3; 4]%Z]]
  = Ok [[[map inject_Z [1; 2]%Z]; [map inject_Z [3; 4]%Z]]] /\
  map (map (@concat Q)) [[[map inject_Z [1; 2]%Z]; [map inject_Z [3; 4]%Z]]]
  = [[map inject_Z [1; 2]%Z; map inject_Z [3; 4]%Z]].
Proof.
  assert (H : LSTM_AD._reshape_outputs Fixtures.lstm_trained
                [[map inject_Z [1; 2]%Z; map inject_Z [3; 4]%Z]]
              = Ok [[[map inject_Z [1; 2]%Z]; [map inject_Z [3; 4]%Z]]])
    by (vm_compute; reflexivity).
  split; [exact H|].
  exact (proj1 (@lstm_reshape_outputs_roundtrip _ _ _ _ H)).
Defined.

Lemma slice_has_shape (T D : nat) (tab : list (list Q)) (s e : option Z) :
  has_shape T D tab ->
  has_shape (slice_stop T e - slice_start T s) D (slice tab s e).
Proof.
  intros [HT HD]. unfold slice. rewrite HT.
  pose proof (slice_stop_le T e). split.
  - rewrite length_firstn, length_skipn. lia.
  - apply Forall_forall. intros r Hr.
    apply (proj1 (Forall_forall _ _) HD). eapply In_firstn_skipn. exact Hr.
Qed.

(** X12. [_transform_train_data_target] never trips [np.stack]: for every
    horizon l >= 1 all stacked slices have the same n-l rows (none when the
    table is no longer than the horizon), so the call returns n-l inputs and
    n-l targets instead of raising. *)
Theorem lstm_transform_never_raises (B : LSTM_AD.Backend)
  (self : LSTM_AD.t B) (data : DataFrame) :
  wf data ->
  (1 <= LSTM_AD._l_preds self)%Z ->
  exists inputs targets,
    LSTM_AD._transform_train_data_target self data
      = Ok ([inputs], [targets]) /\
    length inputs = len data - Z.to_nat (LSTM_AD._l_preds self) /\
    length targets = len data - Z.to_nat (LSTM_AD._l_preds self).
Proof.
  intros [_ Hrect] HL.
  set (n := len data). set (l := Z.to_nat (LSTM_AD._l_preds self)).
  assert (Hshape : has_shape n (ncols data) (rows data)) by (split; auto).
  unfold LSTM_AD._transform_train_data_target, LSTM_AD.expand_dims.
  set (tabs :=
         map (fun i => slice (rows data) (Some (1 + i)%Z)
                         (Some (- LSTM_AD._l_preds self + i + 1)%Z))
             (LSTM_AD.range (LSTM_AD._l_preds self - 1))
         ++ [slice (rows data) (Some (LSTM_AD._l_preds self)) None]).
  assert (Harr :
            map (fun i => LSTM_AD.slice_axis1 [rows data] (Some (1 + i)%Z)
                            (Some (- LSTM_AD._l_preds self + i + 1)%Z))
                (LSTM_AD.range (LSTM_AD._l_preds self - 1))
            ++ [LSTM_AD.slice_axis1 [rows data]
                  (Some (LSTM_AD._l_preds self)) None]
            = map (fun tab => [tab]) tabs).
  { unfold tabs. rewrite map_app, map_map. reflexivity. }
  rewrite Harr.
  rewrite (@np_stack_axis3_tables (n - l) (ncols data)).
  - cbn [bind]. eexists. eexists. split; [reflexivity|]. split.
    + unfold slice. cbn [slice_start slice_stop]. unfold norm_index.
      rewrite length_firstn, length_skipn. fold (len data). fold n.
      destruct (- LSTM_AD._l_preds self <? 0)%Z eqn:E; lia.
    + rewrite length_map, length_seq. reflexivity.
  - unfold tabs. intros E. apply app_eq_nil in E. destruct E; discriminate.
  - unfold tabs. apply Forall_app. split.
    + apply Forall_forall. intros tab Htab.
      apply in_map_iff in Htab. destruct Htab as [i [<- Hi]].
      unfold LSTM_AD.range in Hi. apply in_map_iff in Hi.
      destruct Hi as [k [<- Hk]]. apply in_seq in Hk.
      pose proof (@slice_has_shape n (ncols data) (rows data)
                    (Some (1 + Z.of_nat k)%Z)
                    (Some (- LSTM_AD._l_preds self + Z.of_nat k + 1)%Z)
                    Hshape) as Hs.
      replace (n - l) with
        (slice_stop n (Some (- LSTM_AD._l_preds self + Z.of_nat k + 1)%Z)
         - slice_start n (Some (1 + Z.of_nat k)%Z)); [exact Hs|].
      cbn [slice_start slice_stop]. unfold norm_index.
      destruct (1 + Z.of_nat k <? 0)%Z eqn:E1;
        destruct (- LSTM_AD._l_preds self + Z.of_nat k + 1 <? 0)%Z eqn:E2; lia.
    + constructor; [|constructor].
      pose proof (@slice_has_shape n (ncols data) (rows data)
                    (Some (LSTM_AD._l_preds self)) None Hshape) as Hs.
      replace (n - l) with
        (slice_stop n None - slice_start n (Some (LSTM_AD._l_preds self)));
        [exact Hs|].
      cbn [slice_start slice_stop]. unfold norm_index.
      destruct (LSTM_AD._l_preds self <? 0)%Z eqn:E1; lia.
Qed.

Lemma lstm_transform_never_raises_witness :
  wf (Fixtures.ramp 1 2) /\
  (1 <= LSTM_AD._l_preds Fixtures.lstm_trained)%Z /\
  exists inputs targets,
    LSTM_AD._transform_train_data_target Fixtures.lstm_trained
      (Fixtures.ramp 1 2) = Ok ([inputs], [targets]) /\
    length inputs = 0 /\ length targets = 0.
Proof.
  assert (HL : (1 <= LSTM_AD._l_preds Fixtures.lstm_trained)%Z) by by_eval.
  split; [apply ramp_wf|]. split; [exact HL|].
  exact (@lstm_transform_never_raises _ Fixtures.lstm_trained
           (Fixtures.ramp 1 2) (ramp_wf 1 2) HL).
Defined.

(** X13. For a horizon l >= 2 and at least 2l-1 rows,
    [_transform_eval_data_target] returns the first n-l rows as inputs and
    n+1-2l targets, target k being row l+k of the table. *)
Theorem lstm_eval_targets (B : LSTM_AD.Backend) (self : LSTM_AD.t B)
  (data : DataFrame) :
  let n := len data in
  let l := Z.to_nat (LSTM_AD._l_preds self) in
  (2 <= LSTM_AD._l_preds self)%Z ->
  2 * l <= n + 1 ->
  exists inputs targets,
    LSTM_AD._transform_eval_data_target self data = ([inputs], [targets]) /\
    length inputs = n - l /\
    length targets = n + 1 - 2 * l /\
    (forall t, t < n - l -> nth t inputs [] = nth t (rows data) []) /\
    (forall k, k < n + 1 - 2 * l ->
       nth k targets [] = nth (l + k) (rows data) []).
Proof.
  intros n l HL Hn.
  exists (firstn (n - l) (rows data)),
         (firstn (n + 1 - 2 * l) (skipn l (rows data))).
  split; [|split; [|split; [|split]]].
  - unfold LSTM_AD._transform_eval_data_target, LSTM_AD.expand_dims,
      LSTM_AD.slice_axis1, slice.
    cbn [map slice_start slice_stop]. unfold norm_index.
    fold (len data). fold n.
    destruct (- LSTM_AD._l_preds self <? 0)%Z eqn:E1; [|lia].
    destruct (LSTM_AD._l_preds self <? 0)%Z eqn:E2; [lia|].
    destruct (- LSTM_AD._l_preds self + 1 <? 0)%Z eqn:E3; [|lia].
    rewrite skipn_O.
    replace (Z.to_nat (Z.max 0 (- LSTM_AD._l_preds self + Z.of_nat n)) - 0)
      with (n - l) by lia.
    replace (Nat.min (Z.to_nat (LSTM_AD._l_preds self)) n) with l by lia.
    replace (Z.to_nat (Z.max 0 (- LSTM_AD._l_preds self + 1 + Z.of_nat n)) - l)
      with (n + 1 - 2 * l) by lia.
    reflexivity.
  - rewrite length_firstn. fold (len data). fold n. lia.
  - rewrite length_firstn, length_skipn. fold (len data). fold n. lia.
  - intros t Ht. rewrite nth_firstn.
    destruct (Nat.ltb_spec t (n - l)); [reflexivity|lia].
  - intros k Hk. rewrite nth_firstn, nth_skipn.
    destruct (Nat.ltb_spec k (n + 1 - 2 * l)); [reflexivity|lia].
Qed.

Lemma lstm_eval_targets_witness :
  (2 <= LSTM_AD._l_preds Fixtures.lstm_trained)%Z /\
  2 * Z.to_nat (LSTM_AD._l_preds Fixtures.lstm_trained)
    <= len (Fixtures.ramp 1 5) + 1 /\
  exists inputs targets,
    LSTM_AD._transform_eval_data_target Fixtures.lstm_trained
      (Fixtures.ramp 1 5) = ([inputs], [targets]) /\
    length inputs = 3 /\ length targets = 2.
Proof.
  assert (HL : (2 <= LSTM_AD._l_preds Fixtures.lstm_trained)%Z) by by_eval.
  assert (Hn : 2 * Z.to_nat (LSTM_AD._l_preds Fixtures.lstm_trained)
               <= len (Fixtures.ramp 1 5) + 1) by by_eval.
  split; [exact HL|]. split; [exact Hn|].
  destruct (@lstm_eval_targets _ Fixtures.lstm_trained (Fixtures.ramp 1 5)
              HL Hn) as (inputs & targets & H & Hi & Ht & _).
  exists inputs, targets. split; [exact H|]. split; [exact Hi|exact Ht].
Defined.

(** X14. A second successful [LSTM_AD.train] ends in the state the same call
    reaches from the detector as it was before the first one: network, error
    distribution and signal count are all replaced. *)
Theorem lstm_retrain_forgets_first (B : LSTM_AD.Backend)
  (self self1 s : LSTM_AD.t B) (d1 d2 : DataFrame)
  (epochs1 epochs2 : nat) (lr1 lr2 : Q) :
  LSTM_AD.train self d1 epochs1 lr1 = (self1, Ok tt) ->
  LSTM_AD.train self d2 epochs2 lr2 = (s, Ok tt) ->
  LSTM_AD.train self1 d2 epochs2 lr2 = (s, Ok tt).
Proof. apply lstm_train_replaces_state. Qed.

Lemma lstm_retrain_forgets_first_witness :
  LSTM_AD.train (LSTM_AD.__init__ Fixtures.lstm_backend 2 400 (9 # 10))
    (Fixtures.ramp 1 5) 50 (1 # 10000) = (Fixtures.lstm_trained, Ok tt) /\
  LSTM_AD.train (LSTM_AD.__init__ Fixtures.lstm_backend 2 400 (9 # 10))
    Fixtures.two_columns 50 (1 # 10000)
  = (fst (LSTM_AD.train
            (LSTM_AD.__init__ Fixtures.lstm_backend 2 400 (9 # 10))
            Fixtures.two_columns 50 (1 # 10000)), Ok tt) /\
  LSTM_AD.train Fixtures.lstm_trained Fixtures.two_columns 50 (1 # 10000)
  = (fst (LSTM_AD.train
            (LSTM_AD.__init__ Fixtures.lstm_backend 2 400 (9 # 10))
            Fixtures.two_columns 50 (1 # 10000)), Ok tt).
Proof.
  assert (H1 : LSTM_AD.train
                 (LSTM_AD.__init__ Fixtures.lstm_backend 2 400 (9 # 10))
                 (Fixtures.ramp 1 5) 50 (1 # 10000)
               = (Fixtures.lstm_trained, Ok tt)) by reflexivity.
  assert (H2 : LSTM_AD.train
                 (LSTM_AD.__init__ Fixtures.lstm_backend 2 400 (9 # 10))
                 Fixtures.two_columns 50 (1 # 10000)
               = (fst (LSTM_AD.train
                         (LSTM_AD.__init__ Fixtures.lstm_backend 2 400 (9 # 10))
                         Fixtures.two_columns 50 (1 # 10000)), Ok tt))
    by reflexivity.
  split; [exact H1|]. split; [exact H2|].
  exact (@lstm_retrain_forgets_first _ _ _ _ _ _ _ _ _ _ H1 H2).
Defined.

(** ** Donut: what [train] keeps and what [predict] refuses *)

Section DonutInvariants.

Variable L : Donut.Lib.

(** Every step of the training loop, whether it completes or raises, only
    appends to the three lists: the same number of models, sessions and
    predictors, with variable scopes counted on from the model counter. *)
Lemma donut_train_columns_grows cols (self : Donut.t L) ts :
  let self' := fst (Donut.train_columns self ts cols) in
  exists ms ss,
    Donut._models self' = Donut._models self ++ ms /\
    Donut._sessions self' = Donut._sessions self ++ ss /\
    Donut._predictors self' = Donut._predictors self ++ ms /\
    length ss = length ms /\
    Donut._model_counter self <= Donut._model_counter self' /\
    Forall (fun m => Donut._model_counter self <= Donut.variable_scope m
                     < Donut._model_counter self') ms /\
    NoDup (map Donut.variable_scope ms).
Proof.
  revert self ts. induction cols as [|c cols IH]; intros self ts.
  - cbn. exists [], []. rewrite !app_nil_r.
    repeat split; auto; constructor.
  - cbn [Donut.train_columns].
    destruct (Donut.complete_timestamp L ts c (Donut.zeros_like c))
      as [[[ts' missing] [values labels]]|e].
    2:{ cbn. exists [], []. rewrite !app_nil_r.
        repeat split; auto; constructor. }
    destruct (Donut.standardize_kpi L values
                (Donut.logical_or labels missing)) as [[tv mean] std].
    cbn [Donut._build_model].
    match goal with
    | |- context [Donut.trainer_fit L ?m tv labels missing mean std] =>
        set (model := m);
        destruct (Donut.trainer_fit L model tv labels missing mean std)
          as [session|e]
    end.
    2:{ cbn. exists [], []. rewrite !app_nil_r.
        repeat split; auto; try constructor. lia. }
    match goal with
    | |- context [Donut.train_columns ?s ts' cols] =>
        specialize (IH s ts'); set (next := s) in *
    end.
    cbn zeta in IH |- *.
    destruct IH as (ms & ss & Hm & Hs & Hp & Hlen & Hc & Hall & Hnd).
    set (res := fst (Donut.train_columns next ts' cols)) in *.
    clearbody res. unfold next in *. clear next.
    cbn [Donut.append Donut._models Donut._sessions Donut._predictors
         Donut._model_counter] in Hm, Hs, Hp, Hc, Hall.
    exists (model :: ms), (session :: ss).
    rewrite Hm, Hs, Hp, <- !app_assoc. cbn [app length map].
    repeat split; try reflexivity; try lia.
    + constructor.
      * unfold model. cbn [Donut.variable_scope]. lia.
      * eapply Forall_impl; [|exact Hall]. cbn. intros m Hm'. lia.
    + constructor; [|exact Hnd].
      intros Hin. apply in_map_iff in Hin. destruct Hin as [m [Hsc Hm']].
      pose proof (proj1 (Forall_forall _ _) Hall m Hm') as Hb.
      cbn beta in Hb. unfold model in Hsc. cbn in Hsc. lia.
Qed.

Lemma donut_train_grows (self : Donut.t L) data epochs :
  let self' := fst (Donut.train self data epochs) in
  exists ms ss,
    Donut._models self' = Donut._models self ++ ms /\
    Donut._sessions self' = Donut._sessions self ++ ss /\
    Donut._predictors self' = Donut._predictors self ++ ms /\
    length ss = length ms /\
    Donut._model_counter self <= Donut._model_counter self' /\
    Forall (fun m => Donut._model_counter self <= Donut.variable_scope m
                     < Donut._model_counter self') ms /\
    NoDup (map Donut.variable_scope ms).
Proof.
  unfold Donut.train.
  destruct (Utils.window_data data (Z.to_nat (Donut._window_size self)))
    as [wd|e].
  - apply donut_train_columns_grows.
  - cbn. exists [], []. rewrite !app_nil_r. repeat split; auto; constructor.
Qed.

(** X15. [Donut.train] keeps the three per-column lists in step, however it
    ends: if models, sessions and predictors were equally many before the
    call, they are equally many after it, also when the call raised half way
    through the columns. *)
Theorem donut_lists_stay_aligned (self : Donut.t L) (data : DataFrame)
  (epochs : nat) :
  length (Donut._models self) = length (Donut._sessions self) ->
  length (Donut._predictors self) = length (Donut._sessions self) ->
  let self' := fst (Donut.train self data epochs) in
  length (Donut._models self') = length (Donut._sessions self') /\
  length (Donut._predictors self') = length (Donut._sessions self').
Proof.
  intros H1 H2 self'.
  destruct (donut_train_grows self data epochs)
    as (ms & ss & Hm & Hs & Hp & Hlen & _).
  fold self' in Hm, Hs, Hp. rewrite Hm, Hs, Hp, !length_app. lia.
Qed.

(** X16. The variable scopes [model<counter>] stay pairwise distinct and
    below the counter across calls of [Donut.train], however the calls end:
    no two models of a detector ever share a scope. *)
Theorem donut_scopes_stay_distinct (self : Donut.t L) (data : DataFrame)
  (epochs : nat) :
  Forall (fun m => Donut.variable_scope m < Donut._model_counter self)
         (Donut._models self) ->
  NoDup (map Donut.variable_scope (Donut._models self)) ->
  let self' := fst (Donut.train self data epochs) in
  Forall (fun m => Donut.variable_scope m < Donut._model_counter self')
         (Donut._models self') /\
  NoDup (map Donut.variable_scope (Donut._models self')).
Proof.
  intros Hlt Hnd self'.
  destruct (donut_train_grows self data epochs)
    as (ms & ss & Hm & _ & _ & _ & Hc & Hall & Hnd').
  fold self' in Hm, Hc, Hall. rewrite Hm. split.
  - apply Forall_app. split.
    + eapply Forall_impl; [|exact Hlt]. cbn. intros m Hm'. lia.
    + eapply Forall_impl; [|exact Hall]. cbn. intros m Hm'. lia.
  - rewrite map_app.
    assert (Hdisj : forall x,
              In x (map Donut.variable_scope (Donut._models self)) ->
              ~ In x (map Donut.variable_scope ms)).
    { intros x Hx Hx'.
      apply in_map_iff in Hx. destruct Hx as [m [<- Hm1]].
      apply in_map_iff in Hx'. destruct Hx' as [m' [Heq Hm2]].
      pose proof (proj1 (Forall_forall _ _) Hlt m Hm1) as Hb1.
      pose proof (proj1 (Forall_forall _ _) Hall m' Hm2) as Hb2.
      cbn beta in Hb1, Hb2. lia. }
    clear - Hnd Hnd' Hdisj.
    induction (map Donut.variable_scope (Donut._models self)) as [|x xs IH].
    + exact Hnd'.
    + inversion Hnd; subst. cbn [app]. constructor.
      * intros Hin. apply in_app_or in Hin. destruct Hin as [Hin|Hin];
          [contradiction|].
        exact (Hdisj x (or_introl eq_refl) Hin).
      * apply IH; [assumption|]. intros y Hy. apply Hdisj. right. exact Hy.
Qed.

(** X17. Existing sessions and predictors are never dropped or reordered by
    [Donut.train], whether it completes or raises: the lists before the call
    are prefixes of the lists after it. *)
Theorem donut_train_only_appends (self : Donut.t L) (data : DataFrame)
  (epochs : nat) :
  let self' := fst (Donut.train self data epochs) in
  exists ms ss,
    Donut._models self' = Donut._models self ++ ms /\
    Donut._sessions self' = Donut._sessions self ++ ss /\
    Donut._predictors self' = Donut._predictors self ++ ms.
Proof.
  intros self'.
  destruct (donut_train_grows self data epochs)
    as (ms & ss & Hm & Hs & Hp & _).
  exists ms, ss. auto.
Qed.

Lemma donut_predict_columns_too_many (self : Donut.t L) cols i ts :
  cols <> [] ->
  length (Donut._sessions self) < i + length cols ->
  raises (Donut.predict_columns self i ts cols).
Proof.
  revert i ts. induction cols as [|c cols IH]; intros i ts Hne Hlen;
    [congruence|].
  cbn [Donut.predict_columns].
  destruct (Donut.complete_timestamp L ts c (Donut.zeros_like c))
    as [[[ts' missing] [values labels]]|e]; [|eexists; reflexivity].
  cbn [bind].
  destruct (nth_error (Donut._sessions self) i) eqn:Es;
    [|eexists; reflexivity].
  destruct (nth_error (Donut._predictors self) i);
    [|eexists; reflexivity].
  destruct (Donut.get_score L _ _ values missing); [|eexists; reflexivity].
  cbn [bind].
  assert (Hi : i < length (Donut._sessions self))
    by (apply nth_error_Some; congruence).
  destruct (IH (S i) ts') as [e He].
  - intros ->. cbn [length] in Hlen. lia.
  - cbn [length] in Hlen. lia.
  - rewrite He. eexists. reflexivity.
Qed.

(** X18. [Donut.predict] raises on every table whose windowed form has more
    columns than the detector has sessions: a detector trained on fewer
    columns cannot score a wider table. *)
Theorem donut_too_wide_raises (self : Donut.t L) (data : DataFrame) :
  length (Donut._sessions self)
    < ncols data * Z.to_nat (Donut._window_size self) ->
  raises (Donut.predict self data).
Proof.
  intros Hlen. unfold Donut.predict.
  destruct (Utils.window_data data (Z.to_nat (Donut._window_size self)))
    as [wd|e] eqn:Ewd; [|eexists; reflexivity].
  cbn [bind].
  assert (Hcols : length (items wd)
                  = ncols data * Z.to_nat (Donut._window_size self)).
  { unfold Utils.window_data in Ewd.
    destruct (length (rows data) <? _); [discriminate|].
    injection Ewd as <-. unfold items. cbn [ncols].
    rewrite length_map, length_seq. reflexivity. }
  destruct (@donut_predict_columns_too_many self (items wd) 0 (index wd))
    as [e He].
  - intros E. rewrite E in Hcols. cbn [length] in Hcols. lia.
  - lia.
  - rewrite He. eexists. reflexivity.
Qed.

(** X19. On a table whose windowed form has no columns, [Donut.predict]
    returns the scalar [nan] of [np.mean([], axis=0)], trained or not: there
    is no column to score and no error to raise. *)
Theorem donut_no_columns_gives_nan (self : Donut.t L) (data : DataFrame) :
  ncols data * Z.to_nat (Donut._window_size self) = 0 ->
  Z.to_nat (Donut._window_size self) <= len data ->
  Donut.predict self data = Ok nan.
Proof.
  intros Hcols HW. unfold Donut.predict, Utils.window_data.
  destruct (Nat.ltb_spec (length (rows data))
              (Z.to_nat (Donut._window_size self))) as [Hlt|_];
    [unfold len in HW; lia|].
  cbn [bind]. unfold items. cbn [ncols]. rewrite Hcols. reflexivity.
Qed.

End DonutInvariants.

Lemma donut_lists_stay_aligned_witness :
  length (Donut._models Fixtures.donut_new)
    = length (Donut._sessions Fixtures.donut_new) /\
  length (Donut._predictors Fixtures.donut_new)
    = length (Donut._sessions Fixtures.donut_new) /\
  length (Donut._models Fixtures.donut_once)
    = length (Donut._sessions Fixtures.donut_once).
Proof.
  assert (H1 : length (Donut._models Fixtures.donut_new)
               = length (Donut._sessions Fixtures.donut_new)) by reflexivity.
  assert (H2 : length (Donut._predictors Fixtures.donut_new)
               = length (Donut._sessions Fixtures.donut_new)) by reflexivity.
  split; [exact H1|]. split; [exact H2|].
  exact (proj1 (@donut_lists_stay_aligned Fixtures.donut_lib
                  Fixtures.donut_new (Fixtures.ramp 1 125) 0 H1 H2)).
Defined.

Lemma donut_scopes_stay_distinct_witness :
  Forall (fun m => Donut.variable_scope m
                   < Donut._model_counter Fixtures.donut_new)
         (Donut._models Fixtures.donut_new) /\
  NoDup (map Donut.variable_scope (Donut._models Fixtures.donut_new)) /\
  NoDup (map Donut.variable_scope (Donut._models Fixtures.donut_once)).
Proof.
  assert (H1 : Forall (fun m => Donut.variable_scope m
                               < Donut._model_counter Fixtures.donut_new)
                 (Donut._models Fixtures.donut_new)) by constructor.
  assert (H2 : NoDup (map Donut.variable_scope
                        (Donut._models Fixtures.donut_new))) by constructor.
  split; [exact H1|]. split; [exact H2|].
  exact (proj2 (@donut_scopes_stay_distinct Fixtures.donut_lib
                  Fixtures.donut_new (Fixtures.ramp 1 125) 0 H1 H2)).
Defined.

Lemma donut_too_wide_raises_witness :
  length (Donut._sessions Fixtures.donut_once)
    < ncols Fixtures.two_columns
      * Z.to_nat (Donut._window_size Fixtures.donut_once) /\
  raises (Donut.predict Fixtures.donut_once Fixtures.two_columns).
Proof.
  assert (H : length (Donut._sessions Fixtures.donut_once)
              < ncols Fixtures.two_columns
                * Z.to_nat (Donut._window_size Fixtures.donut_once))
    by by_eval.
  split; [exact H|].
  exact (@donut_too_wide_raises Fixtures.donut_lib Fixtures.donut_once
           Fixtures.two_columns H).
Defined.

Lemma donut_no_columns_gives_nan_witness :
  ncols (Fixtures.table 0 [[]; []])
    * Z.to_nat (Donut._window_size Fixtures.donut_once) = 0 /\
  Z.to_nat (Donut._window_size Fixtures.donut_once)
    <= len (Fixtures.table 0 [[]; []]) /\
  Donut.predict Fixtures.donut_once (Fixtures.table 0 [[]; []]) = Ok nan.
Proof.
  assert (H1 : ncols (Fixtures.table 0 [[]; []])
               * Z.to_nat (Donut._window_size Fixtures.donut_once) = 0)
    by by_eval.
  assert (H2 : Z.to_nat (Donut._window_size Fixtures.donut_once)
               <= len (Fixtures.table 0 [[]; []])) by by_eval.
  split; [exact H1|]. split; [exact H2|].
  exact (@donut_no_columns_gives_nan Fixtures.donut_lib Fixtures.donut_once
           (Fixtures.table 0 [[]; []]) H1 H2).
Defined.

(** ** Sizes fixed by training *)

(** X20. After a successful [AutoEncoder.train] on a table of D columns the
    stored input size is D * max(W, 1), the length of one (windowed) sample,
    and that is the [in_features] of the first layer of the encoder. *)
Theorem ae_input_size_after_train fit (self self' : AutoEncoder.t)
  (data : DataFrame) (epochs : nat) (lr : Q) :
  wf data ->
  AutoEncoder.train fit self data epochs lr = (self', Ok tt) ->
  let size := ncols data * Z.to_nat (Z.max (AutoEncoder._window_size self) 1) in
  AutoEncoder._input_size self' = size /\
  exists m out rest,
    AutoEncoder.model self' = Some m /\
    AutoEncoder.encoder m = AutoEncoder.Linear (Z.of_nat size) out :: rest.
Proof.
  intros Hwf Htrain size.
  destruct (ae_train_model _ _ _ _ _ Htrain)
    as (td & row0 & rest & weights & Htd & Hrows & _ & Hin & Hm).
  destruct (@ae_sample_sizes self data td Hwf Htd) as [Hsz _].
  rewrite Hrows in Hsz. apply Forall_inv in Hsz. fold size in Hsz.
  split; [congruence|].
  destruct (encoder_first_layer (Z.of_nat (length row0))
              (AutoEncoder._latent_size self) (AutoEncoder._layers self)
              weights) as (out & layers & Henc).
  rewrite Hsz in Henc, Hm. eauto.
Qed.

Lemma ae_input_size_after_train_witness :
  wf (Fixtures.ramp 1 4) /\
  AutoEncoder.train Fixtures.ae_fit
    (AutoEncoder.__init__ 2 100 [500; 200]%Z (8 # 10))
    (Fixtures.ramp 1 4) 20 (1 # 10000) = (Fixtures.ae_trained, Ok tt) /\
  AutoEncoder._input_size Fixtures.ae_trained = 2.
Proof.
  assert (Ht : AutoEncoder.train Fixtures.ae_fit
                 (AutoEncoder.__init__ 2 100 [500; 200]%Z (8 # 10))
                 (Fixtures.ramp 1 4) 20 (1 # 10000)
               = (Fixtures.ae_trained, Ok tt)) by reflexivity.
  split; [apply ramp_wf|]. split; [exact Ht|].
  exact (proj1 (@ae_input_size_after_train _ _ _ _ _ _ (ramp_wf 1 4) Ht)).
Defined.

Lemma donut_train_columns_counter (L : Donut.Lib) cols (self : Donut.t L)
  ts self' :
  Donut.train_columns self ts cols = (self', Ok tt) ->
  Donut._model_counter self' = Donut._model_counter self + length cols.
Proof.
  revert self ts. induction cols as [|c cols IH]; intros self ts H.
  - inversion H; subst self'. cbn. lia.
  - cbn [Donut.train_columns] in H.
    destruct (Donut.complete_timestamp L ts c (Donut.zeros_like c))
      as [[[ts' missing] [values labels]]|e]; [|inversion H].
    destruct (Donut.standardize_kpi L values
                (Donut.logical_or labels missing)) as [[tv mean] std].
    cbn [Donut._build_model] in H.
    match type of H with
    | context [Donut.trainer_fit L ?m tv labels missing mean std] =>
        destruct (Donut.trainer_fit L m tv labels missing mean std)
          as [session|e]; [|inversion H]
    end.
    apply IH in H. cbn [Donut.append Donut._model_counter] in H.
    cbn [length]. lia.
Qed.

(** X21. A successful [Donut.train] fits one model per column of the
    windowed table: models, sessions, predictors and the model counter all
    grow by D * W. *)
Theorem donut_train_one_model_per_column (L : Donut.Lib)
  (self self' : Donut.t L) (data : DataFrame) (epochs : nat) :
  Donut.train self data epochs = (self', Ok tt) ->
  let k := ncols data * Z.to_nat (Donut._window_size self) in
  length (Donut._models self') = length (Donut._models self) + k /\
  length (Donut._sessions self') = length (Donut._sessions self) + k /\
  length (Donut._predictors self') = length (Donut._predictors self) + k /\
  Donut._model_counter self' = Donut._model_counter self + k.
Proof.
  intros H k.
  assert (Hc : Donut._model_counter self' = Donut._model_counter self + k).
  { unfold Donut.train, Utils.window_data in H.
    destruct (length (rows data) <? Z.to_nat (Donut._window_size self));
      [inversion H|].
    apply donut_train_columns_counter in H. rewrite H. f_equal.
    unfold items. cbn [ncols]. rewrite length_map, length_seq. reflexivity. }
  destruct (donut_train_grows self data epochs)
    as (ms & ss & Hm & Hs & Hp & Hlen & _).
  rewrite H in Hm, Hs, Hp. cbn [fst] in Hm, Hs, Hp.
  destruct (donut_train_appends _ _ _ H) as (ms' & ss' & Hs' & _ & _ & Hls & _).
  rewrite Hs in Hs'. apply app_inv_head in Hs'. subst ss'.
  rewrite Hm, Hs, Hp, !length_app. fold k in Hls. lia.
Qed.

Lemma donut_train_one_model_per_column_witness :
  Donut.train (Donut.__init__ Fixtures.donut_lib 2) (Fixtures.ramp 1 125) 0
    = (Fixtures.donut_windowed, Ok tt) /\
  length (Donut._sessions Fixtures.donut_windowed) = 2 /\
  Donut._model_counter Fixtures.donut_windowed = 2.
Proof.
  assert (H : Donut.train (Donut.__init__ Fixtures.donut_lib 2)
                (Fixtures.ramp 1 125) 0
              = (Fixtures.donut_windowed, Ok tt)) by (vm_compute; reflexivity).
  split; [exact H|].
  destruct (@donut_train_one_model_per_column _ _ _ _ _ H)
    as (_ & Hs & _ & Hc).
  split; [exact Hs|exact Hc].
Defined.

(** * Scores that may be nan or infinite *)

(** ** Comparisons and [np.max] over [Float.t] *)

Lemma float_leb_not_nan (x y : Float.t) :
  Float.leb x y = true -> Float.is_nan x = false /\ Float.is_nan y = false.
Proof. destruct x, y; cbn; intros H; try discriminate; auto. Qed.

Lemma float_leb_refl (x : Float.t) :
  Float.is_nan x = false -> Float.leb x x = true.
Proof.
  destruct x; cbn; intros H; try discriminate; auto.
  apply Qle_bool_iff, Qle_refl.
Qed.

Lemma float_leb_trans (x y z : Float.t) :
  Float.leb x y = true -> Float.leb y z = true -> Float.leb x z = true.
Proof.
  destruct x, y, z; cbn; intros H1 H2; try discriminate; auto.
  apply Qle_bool_iff. apply Qle_bool_iff in H1, H2.
  eapply Qle_trans; eassumption.
Qed.

Lemma float_leb_total (x y : Float.t) :
  Float.is_nan x = false -> Float.is_nan y = false ->
  Float.leb x y = true \/ Float.leb y x = true.
Proof.
  destruct x as [| |a|], y as [| |b|]; cbn; intros H1 H2;
    try discriminate; auto.
  destruct (Qlt_le_dec b a) as [H|H].
  - right. apply Qle_bool_iff, Qlt_le_weak, H.
  - left. apply Qle_bool_iff, H.
Qed.

Lemma float_maximum_cases (a b : Float.t) :
  Float.maximum a b = a \/ Float.maximum a b = b.
Proof.
  unfold Float.maximum.
  destruct (Float.is_nan a), (Float.is_nan b), (Float.leb a b); auto.
Qed.

Lemma float_maximum_nan (a b : Float.t) :
  Float.is_nan (Float.maximum a b) = (Float.is_nan a || Float.is_nan b)%bool.
Proof.
  unfold Float.maximum.
  destruct (Float.is_nan a) eqn:Ea; [rewrite Ea; reflexivity|].
  destruct (Float.is_nan b) eqn:Eb; [rewrite Eb; reflexivity|].
  destruct (Float.leb a b); [rewrite Eb|rewrite Ea]; reflexivity.
Qed.

Lemma float_maximum_ge (a b : Float.t) :
  Float.is_nan (Float.maximum a b) = false ->
  Float.leb a (Float.maximum a b) = true /\
  Float.leb b (Float.maximum a b) = true.
Proof.
  rewrite float_maximum_nan. intros H. apply orb_false_iff in H.
  destruct H as [Ha Hb]. unfold Float.maximum. rewrite Ha, Hb.
  destruct (Float.leb a b) eqn:E.
  - split; [exact E|apply float_leb_refl, Hb].
  - split; [apply float_leb_refl, Ha|].
    destruct (float_leb_total a b Ha Hb); congruence.
Qed.

Lemma float_fold_maximum_in (l : list Float.t) (x : Float.t) :
  fold_left Float.maximum l x = x \/ In (fold_left Float.maximum l x) l.
Proof.
  revert x. induction l as [|a l IH]; intros x; cbn [fold_left]; [auto|].
  destruct (IH (Float.maximum x a)) as [H|H]; [|right; right; exact H].
  rewrite H. destruct (float_maximum_cases x a) as [E|E]; rewrite E.
  - left. reflexivity.
  - right. left. reflexivity.
Qed.

Lemma float_fold_maximum_nan (l : list Float.t) (x : Float.t) :
  Float.is_nan (fold_left Float.maximum l x) =
  (Float.is_nan x || existsb Float.is_nan l)%bool.
Proof.
  revert x. induction l as [|a l IH]; intros x; cbn [fold_left existsb].
  - rewrite orb_false_r. reflexivity.
  - rewrite IH, float_maximum_nan, orb_assoc. reflexivity.
Qed.

Lemma float_fold_maximum_ge (l : list Float.t) (x : Float.t) :
  Float.is_nan (fold_left Float.maximum l x) = false ->
  Float.leb x (fold_left Float.maximum l x) = true /\
  forall e, In e l -> Float.leb e (fold_left Float.maximum l x) = true.
Proof.
  revert x. induction l as [|a l IH]; intros x Hn; cbn [fold_left] in *.
  - split; [apply float_leb_refl, Hn|contradiction].
  - destruct (IH _ Hn) as [H1 H2].
    destruct (float_leb_not_nan _ _ H1) as [Hm _].
    destruct (float_maximum_ge x a Hm) as [Hx Ha].
    split; [eapply float_leb_trans; eassumption|].
    intros e [<-|He]; [eapply float_leb_trans; eassumption|auto].
Qed.

(** [np.max] returns an entry of the array; it is [nan] exactly when some
    entry is, and otherwise every entry is [<=] it. *)
Lemma float_np_max_spec (l : list Float.t) (m : Float.t) :
  Float.np_max l = Ok m ->
  In m l /\
  Float.is_nan m = existsb Float.is_nan l /\
  (Float.is_nan m = false -> forall e, In e l -> Float.leb e m = true).
Proof.
  destruct l as [|x xs]; cbn [Float.np_max]; [discriminate|].
  intros H. injection H as <-. split; [|split].
  - destruct (float_fold_maximum_in xs x) as [E|E];
      [left; auto|right; exact E].
  - apply float_fold_maximum_nan.
  - intros Hn. destruct (float_fold_maximum_ge xs x Hn) as [H1 H2].
    intros e [<-|He]; auto.
Qed.

(** ** The auto-encoder over [Float.t] *)

Section AutoEncoderIEEEProps.

Variable mse_loss : list Float.t -> list Float.t -> Float.t.

Variable fit :
  nat -> Z -> list Z -> list (list Float.t) -> nat -> Q ->
  list Float.t -> list Float.t.

Lemma ieee_train_inv self train_data epochs lr self' :
  AutoEncoderIEEE.train mse_loss fit self train_data epochs lr
    = (self', Ok tt) ->
  exists td m errs,
    (if (AutoEncoderIEEE._window_size self >? 1)%Z
     then AutoEncoderIEEE._transform_data self train_data
     else Ok train_data) = Ok td /\
    AutoEncoderIEEE.model self' = Some m /\
    AutoEncoderIEEE._window_size self' = AutoEncoderIEEE._window_size self /\
    AutoEncoderIEEE._threshold self' = AutoEncoderIEEE._threshold self /\
    AutoEncoderIEEE.reconstruction_errors mse_loss m (AutoEncoderIEEE.rows td)
      = Ok errs /\
    Float.np_max errs = Ok (AutoEncoderIEEE._max_error self').
Proof.
  unfold AutoEncoderIEEE.train. intros H.
  destruct (if (AutoEncoderIEEE._window_size self >? 1)%Z
            then AutoEncoderIEEE._transform_data self train_data
            else Ok train_data) as [td|e] eqn:Etd; [|inversion H].
  destruct (AutoEncoderIEEE.rows td) as [|row0 rest] eqn:Erows;
    [inversion H|].
  unfold AutoEncoderIEEE._compute_threshold,
    AutoEncoderIEEE._data_to_tensors in H.
  cbn [AutoEncoderIEEE.set_model AutoEncoderIEEE.model] in H.
  rewrite Erows in H.
  match type of H with
  | context [AutoEncoderIEEE.reconstruction_errors _ ?m ?d] =>
      destruct (AutoEncoderIEEE.reconstruction_errors mse_loss m d)
        as [errs|e] eqn:Eerrs;
      [set (mm := m) in *|simpl in H; inversion H]
  end.
  cbn [bind] in H.
  destruct (Float.np_max errs) as [mx|e] eqn:Emx; [|inversion H].
  inversion H; subst self'. clear H.
  exists td, mm, errs. cbn. rewrite Erows.
  repeat split; try reflexivity; assumption.
Qed.

Lemma ieee_predict_intro self data input m errs :
  (if (AutoEncoderIEEE._window_size self >? 1)%Z
   then AutoEncoderIEEE._transform_data self data
   else Ok data) = Ok input ->
  AutoEncoderIEEE.model self = Some m ->
  AutoEncoderIEEE.reconstruction_errors mse_loss m (AutoEncoderIEEE.rows input)
    = Ok errs ->
  AutoEncoderIEEE.predict mse_loss self data =
    Ok (repeat (Float.Fin 0)
          (Z.to_nat (AutoEncoderIEEE._window_size self - 1)) ++ errs) /\
  length (repeat (Float.Fin 0)
            (Z.to_nat (AutoEncoderIEEE._window_size self - 1)) ++ errs)
    = AutoEncoderIEEE.len data.
Proof.
  intros Hin Hm Herrs. split.
  - unfold AutoEncoderIEEE.predict, AutoEncoderIEEE._data_to_tensors.
    destruct (AutoEncoderIEEE._window_size self >? 1)%Z.
    + rewrite Hin. cbn [bind]. rewrite Hm, Herrs. reflexivity.
    + inversion Hin; subst input. cbn [bind]. rewrite Hm, Herrs. reflexivity.
  - apply mapM_length in Herrs.
    rewrite length_app, repeat_length, Herrs.
    destruct (Z.gtb_spec (AutoEncoderIEEE._window_size self) 1) as [HW|HW].
    + unfold AutoEncoderIEEE._transform_data, AutoEncoderIEEE.window_data in Hin.
      destruct (Nat.ltb_spec (length (AutoEncoderIEEE.rows data))
                  (Z.to_nat (AutoEncoderIEEE._window_size self))) as [|Hle];
        [discriminate|].
      inversion Hin; subst input. cbn [AutoEncoderIEEE.rows].
      rewrite length_map, length_seq. unfold AutoEncoderIEEE.len. lia.
    + inversion Hin; subst input.
      replace (Z.to_nat (AutoEncoderIEEE._window_size self - 1)) with 0 by lia.
      reflexivity.
Qed.

(** The scores of the training table after a successful [train]: the zero
    padding, then the very errors the max error was taken over. *)
Lemma ieee_predict_training_table self data epochs lr self' :
  AutoEncoderIEEE.train mse_loss fit self data epochs lr = (self', Ok tt) ->
  exists errs,
    AutoEncoderIEEE.predict mse_loss self' data =
      Ok (repeat (Float.Fin 0)
            (Z.to_nat (AutoEncoderIEEE._window_size self' - 1)) ++ errs) /\
    length (repeat (Float.Fin 0)
              (Z.to_nat (AutoEncoderIEEE._window_size self' - 1)) ++ errs)
      = AutoEncoderIEEE.len data /\
    Float.np_max errs = Ok (AutoEncoderIEEE._max_error self').
Proof.
  intros Htrain.
  destruct (ieee_train_inv _ _ _ _ Htrain)
    as (td & m & errs & Htd & Hm & HW & _ & Herrs & Hmax).
  exists errs.
  destruct (@ieee_predict_intro self' data td m errs) as [Hp Hl];
    try assumption.
  - unfold AutoEncoderIEEE._transform_data in *. rewrite HW. exact Htd.
  - auto.
Qed.

(** C5 (as the code has it). After a successful [train], [predict] on the
    training table returns one score per row.  When the learned max error
    is not [nan], every entry past the zero padding is [<=] the max error;
    the max error is [nan] exactly when one of those entries is, and then
    no entry compares [<=] to it. *)
Theorem ae_training_errors_below_max_unless_nan
  (self self' : AutoEncoderIEEE.t) (data : AutoEncoderIEEE.Frame)
  (epochs : nat) (lr : Q) :
  AutoEncoderIEEE.train mse_loss fit self data epochs lr = (self', Ok tt) ->
  let max_error := AutoEncoderIEEE._max_error self' in
  let pad := Z.to_nat (AutoEncoderIEEE._window_size self' - 1) in
  exists scores,
    AutoEncoderIEEE.predict mse_loss self' data = Ok scores /\
    length scores = AutoEncoderIEEE.len data /\
    (Float.is_nan max_error = false ->
     forall i, pad <= i -> i < length scores ->
       Float.leb (nth i scores (Float.Fin 0)) max_error = true) /\
    (Float.is_nan max_error = true <->
     exists i, pad <= i /\ i < length scores /\
       Float.is_nan (nth i scores (Float.Fin 0)) = true) /\
    (Float.is_nan max_error = true ->
     forall i, Float.leb (nth i scores (Float.Fin 0)) max_error = false).
Proof.
  intros Htrain max_error pad.
  destruct (ieee_predict_training_table _ _ _ _ Htrain)
    as (errs & Hp & Hlen & Hmax).
  fold pad in Hp, Hlen. fold max_error in Hmax.
  apply float_np_max_spec in Hmax. destruct Hmax as (Hin & Hnan & Hle).
  exists (repeat (Float.Fin 0) pad ++ errs).
  split; [exact Hp|]. split; [exact Hlen|]. split; [|split].
  - intros Hn i Hlo Hhi.
    rewrite length_app, repeat_length in Hhi.
    rewrite app_nth2; rewrite repeat_length; [|exact Hlo].
    apply (Hle Hn). apply nth_In. lia.
  - rewrite Hnan. split.
    + intros Hex. apply existsb_exists in Hex. destruct Hex as (e & He & Hne).
      apply (In_nth _ _ (Float.Fin 0)) in He. destruct He as (k & Hk & Hnth).
      exists (pad + k). rewrite length_app, repeat_length.
      split; [lia|]. split; [lia|].
      rewrite app_nth2; rewrite repeat_length; [|lia].
      replace (pad + k - pad) with k by lia. congruence.
    + intros (i & Hlo & Hhi & Hne).
      rewrite length_app, repeat_length in Hhi.
      rewrite app_nth2 in Hne; rewrite repeat_length in *; [|exact Hlo].
      apply existsb_exists. eexists. split; [|exact Hne].
      apply nth_In. lia.
  - intros Hn i. destruct max_error; try discriminate.
    destruct (nth i _ _); reflexivity.
Qed.

(** X6. When the learned max error is a finite, non-negative number and the
    threshold ratio lies between 0 and 1, [detect] on the training table
    flags at least one row: the sample whose error became the max error
    reaches [threshold * max_error]. *)
Theorem ae_detect_flags_training_maximum
  (self self' : AutoEncoderIEEE.t) (data : AutoEncoderIEEE.Frame)
  (epochs : nat) (lr : Q) :
  AutoEncoderIEEE.train mse_loss fit self data epochs lr = (self', Ok tt) ->
  Float.leb (Float.Fin 0) (AutoEncoderIEEE._threshold self') = true ->
  Float.leb (AutoEncoderIEEE._threshold self') (Float.Fin 1) = true ->
  Float.is_finite (AutoEncoderIEEE._max_error self') = true ->
  Float.leb (Float.Fin 0) (AutoEncoderIEEE._max_error self') = true ->
  exists mask i,
    AutoEncoderIEEE.detect mse_loss self' data = Ok mask /\
    i < length mask /\
    nth i mask 0%Z = 1%Z.
Proof.
  intros Htrain Hthr0 Hthr1 Hfin Hmax0.
  destruct (ieee_predict_training_table _ _ _ _ Htrain)
    as (errs & Hp & _ & Hmax).
  apply float_np_max_spec in Hmax. destruct Hmax as (Hin & _ & _).
  apply (In_nth _ _ (Float.Fin 0)) in Hin. destruct Hin as (k & Hk & Hnth).
  set (pad := Z.to_nat (AutoEncoderIEEE._window_size self' - 1)) in *.
  set (f := fun s : Float.t =>
              if Float.leb (Float.mul (AutoEncoderIEEE._threshold self')
                                      (AutoEncoderIEEE._max_error self')) s
              then 1%Z else 0%Z).
  exists (map f (repeat (Float.Fin 0) pad ++ errs)), (pad + k).
  split; [unfold AutoEncoderIEEE.detect; rewrite Hp; reflexivity|].
  assert (Hlen : pad + k < length (repeat (Float.Fin 0) pad ++ errs))
    by (rewrite length_app, repeat_length; lia).
  split; [rewrite length_map; exact Hlen|].
  rewrite (nth_indep _ 0%Z (f (Float.Fin 0)))
    by (rewrite length_map; exact Hlen).
  rewrite (map_nth f).
  rewrite app_nth2; rewrite repeat_length; [|lia].
  replace (pad + k - pad) with k by lia. rewrite Hnth. unfold f.
  replace (Float.leb _ _) with true; [reflexivity|]. symmetry.
  destruct (AutoEncoderIEEE._max_error self') as [| |m|]; try discriminate.
  destruct (AutoEncoderIEEE._threshold self') as [| |t|]; try discriminate.
  cbn in *. apply Qle_bool_iff. apply Qle_bool_iff in Hthr0, Hthr1, Hmax0.
  setoid_replace m with (1 * m)%Q at 2 by ring.
  apply Qmult_le_compat_r; assumption.
Qed.

(** X7. When the learned max error is a finite, positive number and the
    threshold ratio is above 1, [detect] on the training table flags
    nothing: no training error exceeds the max error, and the zero padding
    stays below the limit too. *)
Theorem ae_detect_spares_training_table
  (self self' : AutoEncoderIEEE.t) (data : AutoEncoderIEEE.Frame)
  (epochs : nat) (lr : Q) :
  AutoEncoderIEEE.train mse_loss fit self data epochs lr = (self', Ok tt) ->
  Float.ltb (Float.Fin 1) (AutoEncoderIEEE._threshold self') = true ->
  Float.is_finite (AutoEncoderIEEE._max_error self') = true ->
  Float.ltb (Float.Fin 0) (AutoEncoderIEEE._max_error self') = true ->
  AutoEncoderIEEE.detect mse_loss self' data
    = Ok (repeat 0%Z (AutoEncoderIEEE.len data)).
Proof.
  intros Htrain Hthr Hfin Hmax0.
  destruct (ieee_predict_training_table _ _ _ _ Htrain)
    as (errs & Hp & Hlen & Hmax).
  apply float_np_max_spec in Hmax. destruct Hmax as (_ & _ & Hle).
  unfold AutoEncoderIEEE.detect. rewrite Hp. cbn [bind]. f_equal.
  rewrite <- Hlen.
  set (limit := Float.mul (AutoEncoderIEEE._threshold self')
                          (AutoEncoderIEEE._max_error self')).
  assert (Hall : forall s,
            In s (repeat (Float.Fin 0)
                    (Z.to_nat (AutoEncoderIEEE._window_size self' - 1))
                  ++ errs) ->
            Float.leb limit s = false).
  { intros s Hs.
    assert (Hs' : s = Float.Fin 0 \/
                  Float.leb s (AutoEncoderIEEE._max_error self') = true).
    { apply in_app_or in Hs. destruct Hs as [Hs|Hs].
      - left. apply repeat_spec in Hs. exact Hs.
      - right. apply Hle; [|exact Hs].
        destruct (AutoEncoderIEEE._max_error self'); try discriminate.
        reflexivity. }
    unfold limit. clear Hle Hp Hlen Hs limit.
    destruct (AutoEncoderIEEE._max_error self') as [| |m|]; try discriminate.
    unfold Float.ltb in Hthr, Hmax0. cbn in Hmax0.
    apply andb_true_iff in Hmax0. destruct Hmax0 as [_ Hm].
    apply negb_true_iff in Hm.
    assert (Hmpos : (0 < m)%Q).
    { apply Qnot_le_lt. intros H. apply Qle_bool_iff in H. congruence. }
    destruct (AutoEncoderIEEE._threshold self') as [| |t|];
      try discriminate.
    - cbn in Hthr. apply andb_true_iff in Hthr. destruct Hthr as [_ Ht].
      apply negb_true_iff in Ht.
      assert (Htgt : (1 < t)%Q).
      { apply Qnot_le_lt. intros H. apply Qle_bool_iff in H. congruence. }
      assert (Hlim : (m < t * m)%Q).
      { setoid_replace m with (1 * m)%Q at 1 by ring.
        apply Qmult_lt_compat_r; assumption. }
      destruct Hs' as [->|Hs'].
      + cbn. destruct (Qle_bool (t * m) 0) eqn:E; [|reflexivity].
        apply Qle_bool_iff in E. exfalso.
        apply (Qlt_not_le _ _ (Qlt_trans _ _ _ Hmpos Hlim) E).
      + destruct s as [| |a|]; try discriminate; [reflexivity|]. cbn in *.
        destruct (Qle_bool (t * m) a) eqn:E; [|reflexivity].
        apply Qle_bool_iff in E, Hs'. exfalso.
        apply (Qlt_not_le _ _ Hlim). eapply Qle_trans; eassumption.
    - cbn. unfold Float.scale_inf.
      destruct (Qcompare_spec m 0) as [E|E|E].
      + rewrite E in Hmpos. exfalso. exact (Qlt_irrefl _ Hmpos).
      + exfalso. exact (Qlt_irrefl _ (Qlt_trans _ _ _ Hmpos E)).
      + destruct Hs' as [->|Hs']; [reflexivity|].
        destruct s; try discriminate; reflexivity. }
  generalize dependent (repeat (Float.Fin 0)
                          (Z.to_nat (AutoEncoderIEEE._window_size self' - 1))
                        ++ errs).
  intros l _ _ Hall. induction l as [|s l IH]; [reflexivity|].
  cbn [map length repeat]. rewrite (Hall s (or_introl eq_refl)). f_equal.
  apply IH. intros s' Hs'. apply Hall. right. exact Hs'.
Qed.

End AutoEncoderIEEEProps.

Lemma ae_training_errors_below_max_unless_nan_witness :
  AutoEncoderIEEE.train Fixtures.mse_loss_ieee Fixtures.ae_fit_ieee
    (AutoEncoderIEEE.__init__ 2 100 [500; 200]%Z (Float.Fin (8 # 10)))
    (Fixtures.frame (Fixtures.ramp 1 4)) 20 (1 # 10000)
  = (Fixtures.ieee_trained, Ok tt) /\
  Float.is_nan (AutoEncoderIEEE._max_error Fixtures.ieee_trained) = false /\
  exists scores,
    AutoEncoderIEEE.predict Fixtures.mse_loss_ieee Fixtures.ieee_trained
      (Fixtures.frame (Fixtures.ramp 1 4)) = Ok scores /\
    Float.leb (nth 3 scores (Float.Fin 0))
      (AutoEncoderIEEE._max_error Fixtures.ieee_trained) = true.
Proof.
  assert (Ht : AutoEncoderIEEE.train Fixtures.mse_loss_ieee
                 Fixtures.ae_fit_ieee
                 (AutoEncoderIEEE.__init__ 2 100 [500; 200]%Z
                    (Float.Fin (8 # 10)))
                 (Fixtures.frame (Fixtures.ramp 1 4)) 20 (1 # 10000)
               = (Fixtures.ieee_trained, Ok tt)) by reflexivity.
  assert (Hn : Float.is_nan (AutoEncoderIEEE._max_error Fixtures.ieee_trained)
               = false) by (vm_compute; reflexivity).
  split; [exact Ht|]. split; [exact Hn|].
  destruct (@ae_training_errors_below_max_unless_nan _ _ _ _ _ _ _ Ht)
    as (scores & Hp & Hlen & Hle & _).
  exists scores. split; [exact Hp|]. apply (Hle Hn).
  - by_eval.
  - rewrite Hlen. by_eval.
Defined.

(** C5, as stated, fails on a table without columns: the mean squared error
    of an empty sample is [nan], so every score and the max error are [nan],
    and [nan <= nan] is false. *)
Lemma ae_nan_error_is_not_below_max :
  AutoEncoderIEEE.train Fixtures.mse_loss_ieee Fixtures.ae_fit_ieee
    (AutoEncoderIEEE.__init__ 1 100 [500; 200]%Z (Float.Fin (8 # 10)))
    Fixtures.no_columns 20 (1 # 10000)
  = (Fixtures.ieee_no_columns, Ok tt) /\
  exists scores,
    AutoEncoderIEEE.predict Fixtures.mse_loss_ieee Fixtures.ieee_no_columns
      Fixtures.no_columns = Ok scores /\
    ~ (forall i,
         Z.to_nat (AutoEncoderIEEE._window_size Fixtures.ieee_no_columns - 1)
           <= i ->
         i < length scores ->
         Float.leb (nth i scores (Float.Fin 0))
           (AutoEncoderIEEE._max_error Fixtures.ieee_no_columns) = true).
Proof.
  split; [vm_compute; reflexivity|].
  exists [Float.NaN; Float.NaN]. split; [vm_compute; reflexivity|].
  intros H. specialize (H 0). vm_compute in H.
  assert (E : false = true) by (apply H; [apply Nat.le_refl|repeat constructor]).
  discriminate E.
Qed.

Lemma ae_detect_flags_training_maximum_witness :
  AutoEncoderIEEE.train Fixtures.mse_loss_ieee Fixtures.ae_fit_ieee
    (AutoEncoderIEEE.__init__ 2 100 [500; 200]%Z (Float.Fin (8 # 10)))
    (Fixtures.frame (Fixtures.ramp 1 4)) 20 (1 # 10000)
  = (Fixtures.ieee_trained, Ok tt) /\
  Float.leb (Float.Fin 0) (AutoEncoderIEEE._threshold Fixtures.ieee_trained)
    = true /\
  Float.leb (AutoEncoderIEEE._threshold Fixtures.ieee_trained) (Float.Fin 1)
    = true /\
  Float.is_finite (AutoEncoderIEEE._max_error Fixtures.ieee_trained) = true /\
  Float.leb (Float.Fin 0) (AutoEncoderIEEE._max_error Fixtures.ieee_trained)
    = true /\
  exists mask i,
    AutoEncoderIEEE.detect Fixtures.mse_loss_ieee Fixtures.ieee_trained
      (Fixtures.frame (Fixtures.ramp 1 4)) = Ok mask /\
    i < length mask /\ nth i mask 0%Z = 1%Z.
Proof.
  assert (Ht : AutoEncoderIEEE.train Fixtures.mse_loss_ieee
                 Fixtures.ae_fit_ieee
                 (AutoEncoderIEEE.__init__ 2 100 [500; 200]%Z
                    (Float.Fin (8 # 10)))
                 (Fixtures.frame (Fixtures.ramp 1 4)) 20 (1 # 10000)
               = (Fixtures.ieee_trained, Ok tt)) by reflexivity.
  assert (H0 : Float.leb (Float.Fin 0)
                 (AutoEncoderIEEE._threshold Fixtures.ieee_trained) = true)
    by (vm_compute; reflexivity).
  assert (H1 : Float.leb (AutoEncoderIEEE._threshold Fixtures.ieee_trained)
                 (Float.Fin 1) = true) by (vm_compute; reflexivity).
  assert (Hf : Float.is_finite
                 (AutoEncoderIEEE._max_error Fixtures.ieee_trained) = true)
    by (vm_compute; reflexivity).
  assert (Hm : Float.leb (Float.Fin 0)
                 (AutoEncoderIEEE._max_error Fixtures.ieee_trained) = true)
    by (vm_compute; reflexivity).
  split; [exact Ht|]. split; [exact H0|]. split; [exact H1|].
  split; [exact Hf|]. split; [exact Hm|].
  exact (@ae_detect_flags_training_maximum _ _ _ _ _ _ _ Ht H0 H1 Hf Hm).
Defined.

Lemma ae_detect_spares_training_table_witness :
  AutoEncoderIEEE.train Fixtures.mse_loss_ieee Fixtures.ae_fit_ieee
    (AutoEncoderIEEE.__init__ 2 100 [500; 200]%Z (Float.Fin (12 # 10)))
    (Fixtures.frame (Fixtures.ramp 1 4)) 20 (1 # 10000)
  = (Fixtures.ieee_strict, Ok tt) /\
  Float.ltb (Float.Fin 1) (AutoEncoderIEEE._threshold Fixtures.ieee_strict)
    = true /\
  Float.is_finite (AutoEncoderIEEE._max_error Fixtures.ieee_strict) = true /\
  Float.ltb (Float.Fin 0) (AutoEncoderIEEE._max_error Fixtures.ieee_strict)
    = true /\
  AutoEncoderIEEE.detect Fixtures.mse_loss_ieee Fixtures.ieee_strict
    (Fixtures.frame (Fixtures.ramp 1 4)) = Ok [0; 0; 0; 0]%Z.
Proof.
  assert (Ht : AutoEncoderIEEE.train Fixtures.mse_loss_ieee
                 Fixtures.ae_fit_ieee
                 (AutoEncoderIEEE.__init__ 2 100 [500; 200]%Z
                    (Float.Fin (12 # 10)))
                 (Fixtures.frame (Fixtures.ramp 1 4)) 20 (1 # 10000)
               = (Fixtures.ieee_strict, Ok tt)) by reflexivity.
  assert (H1 : Float.ltb (Float.Fin 1)
                 (AutoEncoderIEEE._threshold Fixtures.ieee_strict) = true)
    by (vm_compute; reflexivity).
  assert (Hf : Float.is_finite
                 (AutoEncoderIEEE._max_error Fixtures.ieee_strict) = true)
    by (vm_compute; reflexivity).
  assert (Hm : Float.ltb (Float.Fin 0)
                 (AutoEncoderIEEE._max_error Fixtures.ieee_strict) = true)
    by (vm_compute; reflexivity).
  split; [exact Ht|]. split; [exact H1|]. split; [exact Hf|].
  split; [exact Hm|].
  exact (@ae_detect_spares_training_table _ _ _ _ _ _ _ Ht H1 Hf Hm).
Defined.
